(** * A model of the Pax BLE fan client

    Shallow embedding of [custom_components/pax_ble/ble_fan.py] (class
    [BleFan]): the [struct] layouts of the GATT characteristics, the
    decoders and encoders of the fan client, and the connection life cycle.

    Python integers are [Z], byte strings are [list byte], floats are the
    binary64 primitive floats.  A coroutine of the source is a computation
    in the monad [M]: a function from the world (the fields of the [BleFan]
    instance together with the state of the Bluetooth transport) to a
    result or a raised exception and the world afterwards. *)

From Stdlib Require Import ZArith List String Strings.Byte Bool Lia.
From Stdlib Require Import Floats Uint63.
Import ListNotations.

Set Warnings "-inexact-float".

Local Open Scope string_scope.
Local Open Scope list_scope.
Local Open Scope Z_scope.

(** ** Exceptions and results *)

(** The exceptions the modelled code can raise.  Every one of them derives
    from Python's [Exception], so an [except Exception] clause catches all. *)
Inductive Exn :=
| ValueError (msg : string)
| AttributeError (msg : string)
| TypeError (msg : string)
| KeyError
| IndexError
| StructError
| UnicodeEncodeError
| UnicodeDecodeError
| BleakError.

Inductive Result (A : Type) :=
| Ok (a : A)
| Raise (e : Exn).
Arguments Ok {A} a.
Arguments Raise {A} e.

Definition rbind {A B} (r : Result A) (k : A -> Result B) : Result B :=
  match r with
  | Ok a => k a
  | Raise e => Raise e
  end.

(** ** Bytes *)

Definition byte_of_Z (z : Z) : byte :=
  match Byte.of_N (Z.to_N z) with
  | Some b => b
  | None => x00
  end.

Definition Z_of_byte (b : byte) : Z := Z.of_N (Byte.to_N b).

(** ** The [struct] module: [pack] and [unpack] with the ["<"] prefix
    (little-endian, standard sizes, no padding). *)
Module Struct.

Inductive Code :=
| fB   (* "B": unsigned char,  1 byte  *)
| fb   (* "b": signed char,    1 byte  *)
| fH   (* "H": unsigned short, 2 bytes *)
| fI.  (* "I": unsigned int,   4 bytes *)

Definition size (c : Code) : nat :=
  match c with
  | fB | fb => 1
  | fH => 2
  | fI => 4
  end.

Definition calcsize (fmt : list Code) : nat :=
  fold_right (fun c n => (size c + n)%nat) 0%nat fmt.

Definition in_range (c : Code) (v : Z) : bool :=
  match c with
  | fB => (0 <=? v) && (v <=? 255)
  | fb => (-128 <=? v) && (v <=? 127)
  | fH => (0 <=? v) && (v <=? 65535)
  | fI => (0 <=? v) && (v <=? 4294967295)
  end.

(** [n] bytes of [v], least significant first (two's complement for a
    negative [v]). *)
Fixpoint le_bytes (n : nat) (v : Z) : list byte :=
  match n with
  | O => []
  | S k => byte_of_Z (v mod 256) :: le_bytes k (v / 256)
  end.

Fixpoint le_value (bs : list byte) : Z :=
  match bs with
  | [] => 0
  | x :: r => Z_of_byte x + 256 * le_value r
  end.

Definition pack_one (c : Code) (v : Z) : Result (list byte) :=
  if in_range c v then Ok (le_bytes (size c) v) else Raise StructError.

Definition unpack_one (c : Code) (bs : list byte) : Z :=
  match c with
  | fb => let u := le_value bs in if u <? 128 then u else u - 256
  | _ => le_value bs
  end.

(** [struct.pack("<...", *vals)]: a wrong number of arguments or a value
    out of range for its field is a [struct.error]. *)
Fixpoint pack (fmt : list Code) (vals : list Z) : Result (list byte) :=
  match fmt, vals with
  | [], [] => Ok []
  | c :: fmt', v :: vals' =>
      rbind (pack_one c v) (fun x =>
      rbind (pack fmt' vals') (fun r => Ok (x ++ r)))
  | _, _ => Raise StructError
  end.

Fixpoint unpack_fields (fmt : list Code) (data : list byte) : list Z :=
  match fmt with
  | [] => []
  | c :: fmt' =>
      unpack_one c (firstn (size c) data)
        :: unpack_fields fmt' (skipn (size c) data)
  end.

(** [struct.unpack("<...", data)]: the buffer must have exactly the size
    of the format. *)
Definition unpack (fmt : list Code) (data : list byte) : Result (list Z) :=
  if Nat.eqb (List.length data) (calcsize fmt)
  then Ok (unpack_fields fmt data)
  else Raise StructError.

(** [struct.pack("<n>s", data)]: the bytes truncated, or padded with null
    bytes, to exactly [n] bytes. *)
Definition pack_s (n : nat) (data : list byte) : list byte :=
  firstn n (data ++ repeat x00 n).

End Struct.

(** ** UTF-8 *)

(** A Python [str] is a sequence of code points. *)
Definition str := list Z.

Module Utf8.

Definition cont (z : Z) : byte := byte_of_Z (Z.lor 128 (Z.land z 63)).

(** The encoding of one code point; surrogates and values outside the
    Unicode range cannot be encoded. *)
Definition encode_cp (cp : Z) : option (list byte) :=
  if cp <? 0 then None
  else if cp <? 128 then Some [byte_of_Z cp]
  else if cp <? 2048 then
    Some [byte_of_Z (Z.lor 192 (Z.shiftr cp 6)); cont cp]
  else if cp <? 65536 then
    if (55296 <=? cp) && (cp <=? 57343) then None
    else Some [byte_of_Z (Z.lor 224 (Z.shiftr cp 12));
               cont (Z.shiftr cp 6); cont cp]
  else if cp <? 1114112 then
    Some [byte_of_Z (Z.lor 240 (Z.shiftr cp 18));
          cont (Z.shiftr cp 12); cont (Z.shiftr cp 6); cont cp]
  else None.

(** [bytearray(s, "utf-8")] *)
Fixpoint encode (s : str) : Result (list byte) :=
  match s with
  | [] => Ok []
  | cp :: r =>
      match encode_cp cp with
      | None => Raise UnicodeEncodeError
      | Some x => rbind (encode r) (fun y => Ok (x ++ y))
      end
  end.

End Utf8.

(** ** Characteristics *)

(** The names imported from [devices/characteristics.py].  The registry of
    a device model, [self.device.chars], maps them to identifiers; it is a
    field of the world, so every statement holds for any registry. *)
Inductive CharName :=
| CHARACTERISTIC_MODEL_NAME
| CHARACTERISTIC_PIN_CODE
| CHARACTERISTIC_PIN_CONFIRMATION
| CHARACTERISTIC_FAN_DESCRIPTION
| CHARACTERISTIC_STATUS
| CHARACTERISTIC_SENSOR_DATA
| CHARACTERISTIC_FACTORY_SETTINGS_CHANGED
| CHARACTERISTIC_MODE
| CHARACTERISTIC_LEVEL_OF_FAN_SPEED
| CHARACTERISTIC_SENSITIVITY
| CHARACTERISTIC_TIME_FUNCTIONS
| CHARACTERISTIC_TEMP_HEAT_DISTRIBUTOR
| CHARACTERISTIC_BOOST
| CHARACTERISTIC_LED
| CHARACTERISTIC_AUTOMATIC_CYCLES
| CHARACTERISTIC_CLOCK
| CHARACTERISTIC_NIGHT_MODE
| CHARACTERISTIC_BASIC_VENTILATION
| CHARACTERISTIC_RESET.

(** What the transport is handed as [char_specifier]: one of the constants
    above passed as it is, or an entry of the model's registry
    [self.device.chars] (a UUID or a numeric handle). *)
Inductive Specifier :=
| ByName (c : CharName)
| ByUUID (u : string)
| ByHandle (h : Z).

Definition CharName_eq_dec (x y : CharName) : {x = y} + {x <> y}.
Proof. decide equality. Defined.

Definition Specifier_eq_dec (x y : Specifier) : {x = y} + {x <> y}.
Proof.
  decide equality;
    [ apply CharName_eq_dec | apply string_dec | apply Z.eq_dec ].
Defined.

(** ** The world: the [BleFan] instance and its collaborators *)

(** How [BleakClient.connect] ends on a resolved device: it raises or it
    returns a value, seen as true or false by [if ret:]; either way [live]
    is what the [is_connected] property of the client reports afterwards.
    The two are independent: nothing in the client ties the returned value
    to the liveness of the link. *)
Inductive ConnectOutcome :=
| ConnectRaises (live : bool)
| ConnectReturns (ret live : bool).

Definition returned_true (o : ConnectOutcome) : bool :=
  match o with
  | ConnectReturns ret _ => ret
  | ConnectRaises _ => false
  end.

Definition live_after (o : ConnectOutcome) : bool :=
  match o with
  | ConnectReturns _ live => live
  | ConnectRaises live => live
  end.

Record BLEDevice := { on_connect : ConnectOutcome }.

Record BleakClient := {
  is_connected : bool;
  ble_device : BLEDevice
}.

Inductive Event :=
| EvDisconnect
| EvRead (s : Specifier)
| EvWrite (s : Specifier) (data : list byte).

Inductive Level := DEBUG | INFO.

Record World := {
  (* the BleFan instance *)
  _dev : option BleakClient;            (* self._dev *)
  _pin : Z;                             (* self._pin *)
  device_chars : CharName -> option Specifier;  (* self.device.chars *)
  (* the module's logger, newest record first *)
  log : list (Level * string);
  (* the platform: what the k-th address resolution finds, how many
     resolutions were made, whether the transport's disconnect raises *)
  radio : nat -> option BLEDevice;
  attempts : nat;
  disconnect_raises : bool;
  (* the peripheral's characteristics and the GATT requests made of the
     transport, newest first *)
  gatt : Specifier -> option (list byte);
  trace : list Event
}.

Definition set_dev (d : option BleakClient) (w : World) : World :=
  {| _dev := d; _pin := _pin w; device_chars := device_chars w;
     log := log w; radio := radio w; attempts := attempts w;
     disconnect_raises := disconnect_raises w; gatt := gatt w;
     trace := trace w |}.

Definition add_log (r : Level * string) (w : World) : World :=
  {| _dev := _dev w; _pin := _pin w; device_chars := device_chars w;
     log := r :: log w; radio := radio w; attempts := attempts w;
     disconnect_raises := disconnect_raises w; gatt := gatt w;
     trace := trace w |}.

Definition bump_attempts (w : World) : World :=
  {| _dev := _dev w; _pin := _pin w; device_chars := device_chars w;
     log := log w; radio := radio w; attempts := S (attempts w);
     disconnect_raises := disconnect_raises w; gatt := gatt w;
     trace := trace w |}.

Definition add_event (e : Event) (w : World) : World :=
  {| _dev := _dev w; _pin := _pin w; device_chars := device_chars w;
     log := log w; radio := radio w; attempts := attempts w;
     disconnect_raises := disconnect_raises w; gatt := gatt w;
     trace := e :: trace w |}.

Definition store (s : Specifier) (data : list byte) (w : World) : World :=
  {| _dev := _dev w; _pin := _pin w; device_chars := device_chars w;
     log := log w; radio := radio w; attempts := attempts w;
     disconnect_raises := disconnect_raises w;
     gatt := fun s' => if Specifier_eq_dec s' s then Some data else gatt w s';
     trace := trace w |}.

(** ** The monad of coroutines *)

Definition M (A : Type) : Type := World -> Result A * World.

Definition ret {A} (a : A) : M A := fun w => (Ok a, w).

Definition raise {A} (e : Exn) : M A := fun w => (Raise e, w).

Definition bind {A B} (c : M A) (k : A -> M B) : M B :=
  fun w =>
    match c w with
    | (Ok a, w') => k a w'
    | (Raise e, w') => (Raise e, w')
    end.

Definition lift {A} (r : Result A) : M A := fun w => (r, w).

(** [try: c  except Exception as e: h e] *)
Definition try_except {A} (c : M A) (h : Exn -> M A) : M A :=
  fun w =>
    match c w with
    | (Ok a, w') => (Ok a, w')
    | (Raise e, w') => h e w'
    end.

Declare Scope monad_scope.
Delimit Scope monad_scope with monad.
Notation "x <- c ;; k" := (bind c (fun x => k))
  (at level 61, c at next level, right associativity) : monad_scope.
Notation "c ;; k" := (bind c (fun _ => k))
  (at level 61, right associativity) : monad_scope.
Local Open Scope monad_scope.

Definition _LOGGER (l : Level) (msg : string) : M unit :=
  fun w => (Ok tt, add_log (l, msg) w).

(** [self.device.chars[name]] *)
Definition chars_getitem (name : CharName) : M Specifier :=
  fun w =>
    match device_chars w name with
    | Some s => (Ok s, w)
    | None => (Raise KeyError, w)
    end.

(** ** The transport (the [bleak] client and the platform's resolver)

    The external Bluetooth provider: it resolves an address to a device,
    connects, disconnects and reports liveness of a handle, and reads and
    writes a characteristic's payload.  A request on a handle that is not
    connected, or a read of a characteristic the peripheral does not have,
    raises [BleakError]; a write is stored by the peripheral.  What
    [connect] returns or raises and what the handle reports as its liveness
    afterwards are both given by the device's [ConnectOutcome]. *)

(** [bluetooth.async_ble_device_from_address(hass, mac.upper())] *)
Definition async_ble_device_from_address : M (option BLEDevice) :=
  fun w => (Ok (radio w (attempts w)), bump_attempts w).

(** [BleakClient(d)] *)
Definition new_BleakClient (d : BLEDevice) : BleakClient :=
  {| is_connected := false; ble_device := d |}.

Definition client_connect (c : BleakClient) : M bool :=
  fun w =>
    match on_connect (ble_device c) with
    | ConnectRaises live =>
        (Raise BleakError,
         set_dev (Some {| is_connected := live;
                          ble_device := ble_device c |}) w)
    | ConnectReturns r live =>
        (Ok r, set_dev (Some {| is_connected := live;
                                ble_device := ble_device c |}) w)
    end.

Definition client_disconnect (c : BleakClient) : M unit :=
  fun w =>
    let w := add_event EvDisconnect w in
    if disconnect_raises w then (Raise BleakError, w)
    else (Ok tt, set_dev (Some {| is_connected := false;
                                  ble_device := ble_device c |}) w).

Definition read_gatt_char (c : BleakClient) (s : Specifier)
  : M (list byte) :=
  fun w =>
    let w := add_event (EvRead s) w in
    if is_connected c then
      match gatt w s with
      | Some data => (Ok data, w)
      | None => (Raise BleakError, w)
      end
    else (Raise BleakError, w).

Definition write_gatt_char (c : BleakClient) (s : Specifier)
  (data : list byte) : M unit :=
  fun w =>
    let w := add_event (EvWrite s data) w in
    if is_connected c then (Ok tt, store s data w)
    else (Raise BleakError, w).

(** A method called on [self._dev]: on [None] the attribute lookup fails. *)
Definition with_dev {A} (method : string) (k : BleakClient -> M A) : M A :=
  fun w =>
    match _dev w with
    | Some c => k c w
    | None =>
        (Raise (AttributeError
                  ("'NoneType' object has no attribute '"
                     ++ method ++ "'")%string),
         w)
    end.

(** ** Python values used by the client *)

(** [t[i]] on a tuple *)
Definition getitem (t : list Z) (i : nat) : Result Z :=
  match nth_error t i with
  | Some x => Ok x
  | None => Raise IndexError
  end.

(** [a and b] on integers: [a] when it is falsy, otherwise [b]. *)
Definition py_and (a b0 : Z) : Z := if a =? 0 then a else b0.

(** [bytearray([...])] of integers: each must be in [range(256)]. *)
Fixpoint bytearray (l : list Z) : Result (list byte) :=
  match l with
  | [] => Ok []
  | x :: r =>
      if (0 <=? x) && (x <? 256)
      then rbind (bytearray r) (fun y => Ok (byte_of_Z x :: y))
      else Raise (ValueError "byte must be in range(0, 256)")
  end.

(** A number that is an [int] or a [float]. *)
Inductive Num :=
| NInt (z : Z)
| NFloat (f : float).

(** The conversion of an integer to a float; exact below 2^53 in absolute
    value, which covers every field of a payload. *)
Definition float_of_int (n : Z) : float :=
  if n <? 0 then PrimFloat.opp (PrimFloat.of_uint63 (Uint63.of_Z (- n)))
  else PrimFloat.of_uint63 (Uint63.of_Z n).

(** What the interpreter and the C library provide: the platform's [log2]
    behind [math.log2], and the built-in [round(x, ndigits)] on floats. *)
Record Runtime := {
  libm_log2 : float -> float;
  builtin_round : float -> Z -> float
}.

(** [math.log2(n)] on an integer: a non-positive argument is a
    ["math domain error"]. *)
Definition math_log2 (rt : Runtime) (n : Z) : Result float :=
  if n <=? 0 then Raise (ValueError "math domain error")
  else Ok (libm_log2 rt (float_of_int n)).

(** The named tuples of the module. *)
Record Fanspeeds := { fs_Humidity : Z; fs_Light : Z; fs_Trickle : Z }.

Record Sensitivity := {
  HumidityOn : Z; Humidity : Z; LightOn : Z; Light : Z
}.

Record BoostMode := { OnOff : Z; Speed : Z; Seconds : Z }.

Record FanState := {
  st_Humidity : Num; st_Temp : float; st_Light : Z; st_RPM : Z;
  st_Mode : string
}.

Definition Fanspeeds_make (v : list Z) : Result Fanspeeds :=
  match v with
  | [x; y; z] => Ok {| fs_Humidity := x; fs_Light := y; fs_Trickle := z |}
  | _ => Raise (TypeError "Expected 3 arguments")
  end.

Definition Sensitivity_make (v : list Z) : Result Sensitivity :=
  match v with
  | [x; y; z; t] =>
      Ok {| HumidityOn := x; Humidity := y; LightOn := z; Light := t |}
  | _ => Raise (TypeError "Expected 4 arguments")
  end.

Definition BoostMode_make (v : list Z) : Result BoostMode :=
  match v with
  | [x; y; z] => Ok {| OnOff := x; Speed := y; Seconds := z |}
  | _ => Raise (TypeError "Expected 3 arguments")
  end.

(** ** [BleFan]: connection life cycle *)

Definition isConnected (w : World) : bool :=
  match _dev w with
  | Some c => is_connected c
  | None => false
  end.

(** One pass through the body of the [while] loop of [connect], after
    [tries += 1]; the result says whether the loop is left by [break]. *)
Definition connect_attempt (tries retries : Z) : M bool :=
  try_except
    (d <- async_ble_device_from_address ;;
     match d with
     | None => raise BleakError
     | Some d =>
         (fun w => (Ok tt, set_dev (Some (new_BleakClient d)) w)) ;;
         r <- with_dev "connect" client_connect ;;
         if r then _LOGGER DEBUG "Connected to %s" ;; ret true
         else ret false
     end)
    (fun _ =>
       (if tries =? retries
        then _LOGGER INFO "Not able to connect to %s! %s"
        else _LOGGER DEBUG "Retrying %s") ;;
       ret false).

(** [while tries < retries: ...]; [None] when the fuel does not suffice. *)
Fixpoint connect_loop (fuel : nat) (tries retries : Z) (w : World)
  : option (Result unit * World) :=
  if tries <? retries then
    match fuel with
    | O => None
    | S fuel' =>
        let tries := tries + 1 in
        match connect_attempt tries retries w with
        | (Ok true, w') => Some (Ok tt, w')
        | (Ok false, w') => connect_loop fuel' tries retries w'
        | (Raise e, w') => Some (Raise e, w')
        end
    end
  else Some (Ok tt, w).

Definition connect (retries : Z) (w : World)
  : option (Result bool * World) :=
  if isConnected w then Some (Ok true, w)
  else
    let w := add_log (DEBUG, "Connecting to %s") w in
    match connect_loop (Z.to_nat retries) 0 retries w with
    | Some (Ok _, w') => Some (Ok (isConnected w'), w')
    | Some (Raise e, w') => Some (Raise e, w')
    | None => None
    end.

Definition disconnect : M unit :=
  fun w =>
    match _dev w with
    | Some _ =>
        (try_except
           (with_dev "disconnect" client_disconnect)
           (fun _ => _LOGGER INFO "Error disconnecting from %s! %s") ;;
         (fun w' => (Ok tt, set_dev None w'))) w
    | None => (Ok tt, w)
    end.

Definition _readUUID (uuid : Specifier) : M (list byte) :=
  with_dev "read_gatt_char" (fun c => read_gatt_char c uuid).

Definition _readHandle (handle : Specifier) : M (list byte) :=
  with_dev "read_gatt_char" (fun c => read_gatt_char c handle).

Definition _writeUUID (uuid : Specifier) (val : list byte) : M unit :=
  with_dev "write_gatt_char" (fun c => write_gatt_char c uuid val).

(** ** Attribute lookup *)

(** The attributes of a [BleFan] instance: the class attribute [device],
    the fields assigned by [__init__], and the methods. *)
Definition BleFan_attributes : list string :=
  [ "device"; "_hass"; "_dev"; "_model"; "_mac"; "_pin";
    "authorize"; "connect"; "disconnect"; "isConnected"; "_bToStr";
    "_readUUID"; "_readHandle"; "_writeUUID"; "getDeviceName";
    "getModelNumber"; "getSerialNumber"; "getHardwareRevision";
    "getFirmwareRevision"; "getSoftwareRevision"; "getManufacturer";
    "setAuth"; "checkAuth"; "setAlias"; "getAlias"; "getIsClockSet";
    "getState"; "getFactorySettingsChanged"; "getMode";
    "setFanSpeedSettings"; "getFanSpeedSettings"; "setSensorsSensitivity";
    "getSensorsSensitivity"; "setLightSensorSettings";
    "getLightSensorSettings"; "getHeatDistributor"; "setBoostMode";
    "getBoostMode"; "getLed"; "setAutomaticCycles"; "getAutomaticCycles";
    "setTime"; "getTime"; "setTimeToNow"; "setSilentHours";
    "getSilentHours"; "setTrickleDays"; "getTrickleDays"; "getReset";
    "resetDevice"; "resetValues" ].

(** [self.<name>]: an [AttributeError] for a name the instance lacks. *)
Definition self_getattr (name : string) : M unit :=
  if existsb (String.eqb name) BleFan_attributes then ret tt
  else raise (AttributeError
                ("'BleFan' object has no attribute '" ++ name ++ "'")%string).

(** What a method call can be made on in [getAlias] and its siblings: the
    bytes a read returned, or a coroutine that has not been awaited. *)
Inductive Receiver :=
| OfBytes (data : list byte)
| OfCoroutine (c : M (list byte)).

(** [bytes.decode("utf-8")]: strict decoding (no overlong forms, no
    surrogates, nothing above U+10FFFF). *)
Definition is_cont (x : byte) : bool :=
  (128 <=? Z_of_byte x) && (Z_of_byte x <=? 191).

Fixpoint utf8_decode (data : list byte) : Result str :=
  match data with
  | [] => Ok []
  | x0 :: r0 =>
      let z0 := Z_of_byte x0 in
      if z0 <? 128 then rbind (utf8_decode r0) (fun s => Ok (z0 :: s))
      else
        match r0 with
        | [] => Raise UnicodeDecodeError
        | x1 :: r1 =>
            let z1 := Z.land (Z_of_byte x1) 63 in
            if negb (is_cont x1) then Raise UnicodeDecodeError
            else if (194 <=? z0) && (z0 <=? 223) then
              rbind (utf8_decode r1) (fun s =>
                Ok (Z.lor (Z.shiftl (Z.land z0 31) 6) z1 :: s))
            else
              match r1 with
              | [] => Raise UnicodeDecodeError
              | x2 :: r2 =>
                  let z2 := Z.land (Z_of_byte x2) 63 in
                  if negb (is_cont x2) then Raise UnicodeDecodeError
                  else if (224 <=? z0) && (z0 <=? 239) then
                    let cp := Z.lor (Z.shiftl (Z.land z0 15) 12)
                                (Z.lor (Z.shiftl z1 6) z2) in
                    if (cp <? 2048) || ((55296 <=? cp) && (cp <=? 57343))
                    then Raise UnicodeDecodeError
                    else rbind (utf8_decode r2) (fun s => Ok (cp :: s))
                  else
                    match r2 with
                    | [] => Raise UnicodeDecodeError
                    | x3 :: r3 =>
                        let z3 := Z.land (Z_of_byte x3) 63 in
                        if negb (is_cont x3) then Raise UnicodeDecodeError
                        else if (240 <=? z0) && (z0 <=? 244) then
                          let cp := Z.lor (Z.shiftl (Z.land z0 7) 18)
                                      (Z.lor (Z.shiftl z1 12)
                                         (Z.lor (Z.shiftl z2 6) z3)) in
                          if (cp <? 65536) || (1114111 <? cp)
                          then Raise UnicodeDecodeError
                          else rbind (utf8_decode r3) (fun s => Ok (cp :: s))
                        else Raise UnicodeDecodeError
                    end
              end
        end
  end.

(** [bytes.decode("ascii")] *)
Fixpoint ascii_decode (data : list byte) : Result str :=
  match data with
  | [] => Ok []
  | x :: r =>
      if Z_of_byte x <? 128
      then rbind (ascii_decode r) (fun s => Ok (Z_of_byte x :: s))
      else Raise UnicodeDecodeError
  end.

Inductive Encoding := ASCII | UTF8.

(** [<receiver>.decode(encoding)]: bytes have the method, a coroutine
    object has no such attribute. *)
Definition decode (o : Receiver) (enc : Encoding) : Result str :=
  match o with
  | OfBytes data =>
      match enc with
      | ASCII => ascii_decode data
      | UTF8 => utf8_decode data
      end
  | OfCoroutine _ =>
      Raise (AttributeError "'coroutine' object has no attribute 'decode'")
  end.

(** [await s] on a [str]. *)
Definition await_str (s : str) : M str :=
  raise (TypeError "object str can't be used in 'await' expression").

(** ** [BleFan]: the PAX characteristics *)

(** [self._writeUUID(self.chars.CHARACTERISTIC_PIN_CODE, pack("<I", int(pin)))]:
    the first argument is looked up on [self.chars], not on
    [self.device.chars] as everywhere else. *)
Definition setAuth (pin : Z) : M unit :=
  uuid <- (self_getattr "chars" ;; chars_getitem CHARACTERISTIC_PIN_CODE) ;;
  data <- lift (Struct.pack [Struct.fI] [pin]) ;;
  _writeUUID uuid data.

Definition authorize : M unit :=
  fun w => setAuth (_pin w) w.

Definition checkAuth : M bool :=
  uuid <- chars_getitem CHARACTERISTIC_PIN_CONFIRMATION ;;
  data <- _readUUID uuid ;;
  v <- lift (Struct.unpack [Struct.fb] data) ;;
  v0 <- lift (getitem v 0) ;;
  ret (negb (v0 =? 0)).

Definition setAlias (name : str) : M unit :=
  uuid <- chars_getitem CHARACTERISTIC_FAN_DESCRIPTION ;;
  data <- lift (Utf8.encode name) ;;
  _writeUUID uuid (Struct.pack_s 20 data).

(** [return await self._readUUID(...).decode("utf-8")]: the method call
    binds tighter than [await], so [decode] is looked up on the coroutine
    that the call of [_readUUID] creates, and the result is what would be
    awaited. *)
Definition getAlias : M str :=
  uuid <- chars_getitem CHARACTERISTIC_FAN_DESCRIPTION ;;
  s <- lift (decode (OfCoroutine (_readUUID uuid)) UTF8) ;;
  await_str s.

(** [return (await self._readHandle(...)).decode("ascii")]: here the read
    is awaited first and [decode] is called on its bytes. *)
Definition getDeviceName : M str :=
  handle <- chars_getitem CHARACTERISTIC_MODEL_NAME ;;
  data <- _readHandle handle ;;
  lift (decode (OfBytes data) ASCII).

(** The trigger computed by [getState] from the mode byte [v[4]]. *)
Definition getState_trigger (v4 : Z) : string :=
  if Z.land (Z.shiftr v4 4) 1 =? 1 then "Boost"
  else if Z.land (Z.shiftr v4 6) 3 =? 3 then "Switch"
  else if Z.land v4 3 =? 1 then "Trickle ventilation"
  else if Z.land v4 3 =? 2 then "Light ventilation"
  else if Z.land v4 3 =? 3 then "Humidity ventilation"
  else "No trigger".

Definition getState (rt : Runtime) : M FanState :=
  uuid <- chars_getitem CHARACTERISTIC_SENSOR_DATA ;;
  data <- _readUUID uuid ;;
  v <- lift (Struct.unpack
               [Struct.fH; Struct.fH; Struct.fH; Struct.fH;
                Struct.fB; Struct.fH; Struct.fB] data) ;;
  _LOGGER DEBUG "Read Fan States: %s" ;;
  v4 <- lift (getitem v 4) ;;
  let trigger := getState_trigger v4 in
  v0 <- lift (getitem v 0) ;;
  hum <- (if v0 >? 30
          then l <- lift (math_log2 rt (v0 - 30)) ;;
               ret (NFloat (builtin_round rt (l * 10)%float 2))
          else ret (NInt 0)) ;;
  v1 <- lift (getitem v 1) ;;
  v2 <- lift (getitem v 2) ;;
  v3 <- lift (getitem v 3) ;;
  ret {| st_Humidity := hum;
         st_Temp := (float_of_int v1 / 4 - 2.6)%float;
         st_Light := v2;
         st_RPM := v3;
         st_Mode := trigger |}.

(** The [for val in (humidity, light, trickle)] loop of
    [setFanSpeedSettings]. *)
Fixpoint setFanSpeedSettings_loop (vals : list Z) : Result unit :=
  match vals with
  | [] => Ok tt
  | val :: rest =>
      if negb (val mod 25 =? 0)
      then Raise (ValueError "Speeds should be multiples of 25")
      else if (val >? 2500) || (val <? 0)
      then Raise (ValueError "Speeds must be between 0 and 2500 rpm")
      else setFanSpeedSettings_loop rest
  end.

Definition setFanSpeedSettings (humidity light trickle : Z) : M unit :=
  lift (setFanSpeedSettings_loop [humidity; light; trickle]) ;;
  _LOGGER DEBUG "Calima setFanSpeedSettings: %s %s %s" ;;
  uuid <- chars_getitem CHARACTERISTIC_LEVEL_OF_FAN_SPEED ;;
  data <- lift (Struct.pack [Struct.fH; Struct.fH; Struct.fH]
                  [humidity; light; trickle]) ;;
  _writeUUID uuid data.

Definition getFanSpeedSettings : M Fanspeeds :=
  uuid <- chars_getitem CHARACTERISTIC_LEVEL_OF_FAN_SPEED ;;
  data <- _readUUID uuid ;;
  v <- lift (Struct.unpack [Struct.fH; Struct.fH; Struct.fH] data) ;;
  lift (Fanspeeds_make v).

Definition getSensorsSensitivity : M Sensitivity :=
  data <- _readUUID (ByName CHARACTERISTIC_SENSITIVITY) ;;
  v <- lift (Struct.unpack [Struct.fB; Struct.fB; Struct.fB; Struct.fB]
               data) ;;
  l <- lift (Sensitivity_make v) ;;
  fixed <- lift (bytearray [ HumidityOn l;
                             py_and (HumidityOn l) (Humidity l);
                             LightOn l;
                             py_and (LightOn l) (Light l) ]) ;;
  v' <- lift (Struct.unpack [Struct.fB; Struct.fB; Struct.fB; Struct.fB]
                fixed) ;;
  lift (Sensitivity_make v').

Definition setBoostMode (on : bool) (speed seconds : Z) : M unit :=
  (if negb (speed mod 25 =? 0)
   then raise (ValueError "Speed must be a multiple of 25")
   else ret tt) ;;
  let speed := if negb on then 0 else speed in
  let seconds := if negb on then 0 else seconds in
  uuid <- chars_getitem CHARACTERISTIC_BOOST ;;
  data <- lift (Struct.pack [Struct.fB; Struct.fH; Struct.fH]
                  [Z.b2z on; speed; seconds]) ;;
  _writeUUID uuid data.

Definition getBoostMode : M BoostMode :=
  uuid <- chars_getitem CHARACTERISTIC_BOOST ;;
  data <- _readUUID uuid ;;
  v <- lift (Struct.unpack [Struct.fB; Struct.fH; Struct.fH] data) ;;
  lift (BoostMode_make v).

(** ** Specification-side definitions *)

(** The decision list of the specification, read on the bits of the mode
    byte: bit 4; bits 6 and 7; the value of bits 0 and 1. *)
Definition low_two_bits (m : Z) : Z :=
  Z.b2z (Z.testbit m 0) + 2 * Z.b2z (Z.testbit m 1).

Definition trigger_spec (m : Z) : string :=
  if Z.testbit m 4 then "Boost"
  else if Z.testbit m 6 && Z.testbit m 7 then "Switch"
  else if low_two_bits m =? 1 then "Trickle ventilation"
  else if low_two_bits m =? 2 then "Light ventilation"
  else if low_two_bits m =? 3 then "Humidity ventilation"
  else "No trigger".


(** The legal domain of a fan speed: {0, 25, ..., 2500}. *)
Definition legal_speed (v : Z) : Prop := exists k, 0 <= k <= 100 /\ v = 25 * k.

(** A 16-bit value, least significant byte first. *)
Definition le16 (v : Z) : list byte :=
  [byte_of_Z (v mod 256); byte_of_Z (v / 256)].

(** The layout of the sensor-data characteristic:
    [Short Short Short Short Byte Short Byte]. *)
Definition sensor_data_format : list Struct.Code :=
  [Struct.fH; Struct.fH; Struct.fH; Struct.fH; Struct.fB; Struct.fH; Struct.fB].

(** The values [getState] computes from the seven fields of the payload. *)
Definition decoded_state (rt : Runtime) (v0 v1 v2 v3 mode : Z) : FanState :=
  {| st_Humidity :=
       if v0 >? 30
       then NFloat (builtin_round rt
                      (libm_log2 rt (float_of_int (v0 - 30)) * 10)%float 2)
       else NInt 0;
     st_Temp := (float_of_int v1 / 4 - 2.6)%float;
     st_Light := v2;
     st_RPM := v3;
     st_Mode := getState_trigger mode |}.

(** ** Concrete worlds to run the model on *)

(** A registry that has every characteristic, each under its own name. *)
Definition example_chars (name : CharName) : option Specifier :=
  Some (ByName name).

Definition live_client : BleakClient :=
  {| is_connected := true;
     ble_device := {| on_connect := ConnectReturns true true |} |}.

(** A client with handle [dev], facing a peripheral whose characteristics
    hold [mem] and a radio on which the successive address resolutions find
    [found]. *)
Definition example_world (dev : option BleakClient)
  (mem : Specifier -> option (list byte)) (found : nat -> option BLEDevice)
  (raises : bool) : World :=
  {| _dev := dev; _pin := 1234; device_chars := example_chars; log := [];
     radio := found; attempts := 0%nat; disconnect_raises := raises;
     gatt := mem; trace := [] |}.

(** The resolutions of a radio given as a list; nothing is found past its
    end. *)
Definition radio_of (l : list (option BLEDevice)) (k : nat)
  : option BLEDevice :=
  nth k l None.

(** A runtime for the examples: a [log2] read off the binary exponent
    (exact on the powers of two), and a [round] to the nearest multiple of
    [10 ^ -ndigits] with ties to the even one, computed on the exact value
    of the float. *)
Definition exponent_log2 (x : float) : float :=
  let (_, e) := PrimFloat.frshiftexp x in
  PrimFloat.sub (PrimFloat.of_uint63 e)
                (PrimFloat.of_uint63 (Uint63.of_Z (FloatOps.shift + 1))).

Definition round_half_even (x : float) (ndigits : Z) : float :=
  match Prim2SF x with
  | S754_finite s m e =>
      let scale := 10 ^ ndigits in
      let num := Z.pos m * scale * 2 ^ Z.max e 0 in
      let den := 2 ^ Z.max (- e) 0 in
      let q := num / den in
      let r := num mod den in
      let q' := if 2 * r <? den then q
                else if den <? 2 * r then q + 1
                else if Z.even q then q else q + 1 in
      let y := (float_of_int q' / float_of_int scale)%float in
      if s then PrimFloat.opp y else y
  | _ => x
  end.

Definition example_runtime : Runtime :=
  {| libm_log2 := exponent_log2; builtin_round := round_half_even |}.

(** The payload of the sensor-data characteristic for the raw values
    [(94, 50, 10, 1800)] and the mode byte [0x10]. *)
Definition example_sensor_data : list byte :=
  le16 94 ++ le16 50 ++ le16 10 ++ le16 1800 ++ [x10] ++ le16 0 ++ [x00].

Definition example_sensor_world : World :=
  example_world (Some live_client)
    (fun s => if Specifier_eq_dec s (ByName CHARACTERISTIC_SENSOR_DATA)
              then Some example_sensor_data else None)
    (radio_of []) false.

(** A connected client whose peripheral holds nothing yet. *)
Definition blank_world : World :=
  example_world (Some live_client) (fun _ => None) (radio_of []) false.

(** A connected client whose sensitivity characteristic holds the raw
    bytes [(humOn=0, hum=3, lightOn=1, light=2)]. *)
Definition example_sensitivity_world : World :=
  example_world (Some live_client)
    (fun s => if Specifier_eq_dec s (ByName CHARACTERISTIC_SENSITIVITY)
              then Some [x00; x03; x01; x02] else None)
    (radio_of []) false.

Definition multiple_of_25 (v : Z) : Prop := exists k, v = 25 * k.

(** The layout of the boost characteristic: [Byte Short Short]. *)
Definition boost_format : list Struct.Code :=
  [Struct.fB; Struct.fH; Struct.fH].

(** The test of the loop: an attempt leaves the loop ([break]) when the
    address resolves and the transport's [connect] returns a true value. *)
Definition attempt_stops (found : option BLEDevice) : bool :=
  match found with
  | Some d => returned_true (on_connect d)
  | None => false
  end.

(** What the handle reports after an attempt that resolved the address. *)
Definition link_live (found : option BLEDevice) : bool :=
  match found with
  | Some d => live_after (on_connect d)
  | None => false
  end.

(** An attempt succeeds when the address resolves, [connect] returns a
    true value and the link is live. *)
Definition attempt_succeeds (found : option BLEDevice) : bool :=
  attempt_stops found && link_live found.

(** An attempt fails when the address does not resolve, or [connect]
    raises or returns a false value and the link is not live. *)
Definition attempt_fails (found : option BLEDevice) : bool :=
  negb (attempt_stops found) && negb (link_live found).

(** The client that [connect] leaves for a resolved device. *)
Definition client_of (d : BLEDevice) : BleakClient :=
  {| is_connected := live_after (on_connect d); ble_device := d |}.

Definition reachable : BLEDevice :=
  {| on_connect := ConnectReturns true true |}.
Definition refusing : BLEDevice := {| on_connect := ConnectRaises false |}.

(** A device whose [connect] establishes the link and returns nothing
    that counts as true. *)
Definition quiet : BLEDevice := {| on_connect := ConnectReturns false true |}.

(** A device whose [connect] returns false without a link. *)
Definition declining : BLEDevice :=
  {| on_connect := ConnectReturns false false |}.

(** A client without a handle, for which the first resolution finds
    nothing, the second finds a device that refuses the connection, and the
    third finds a device that accepts it. *)
Definition third_time_lucky : World :=
  example_world None (fun _ => None)
    (radio_of [None; Some refusing; Some reachable]) false.

(** A client without a handle and a device that is never found. *)
Definition out_of_range : World :=
  example_world None (fun _ => None) (radio_of []) false.

(** A connected client at the moment the transport's disconnect is going to
    raise. *)
Definition failing_disconnect_world : World :=
  example_world (Some live_client) (fun _ => None) (radio_of []) true.

(** A connected client whose alias characteristic holds ["Fan"] padded to
    20 bytes and whose PIN confirmation reads 1. *)
Definition example_alias_world : World :=
  example_world (Some live_client)
    (fun s =>
       if Specifier_eq_dec s (ByName CHARACTERISTIC_FAN_DESCRIPTION)
       then Some (Struct.pack_s 20 [x46; x61; x6e])
       else if Specifier_eq_dec s (ByName CHARACTERISTIC_PIN_CONFIRMATION)
       then Some [x01]
       else None)
    (radio_of []) false.

(** A client without a handle, in reach of a device that always connects
    quietly. *)
Definition quiet_world : World :=
  example_world None (fun _ => None) (fun _ => Some quiet) false.

(** ** [BleFan]: the remaining named tuples *)

Record Time := { DayOfWeek : Z; Hour : Z; Minute : Z; Second : Z }.

Record LightSensorSettings := { DelayedStart : Z; RunningTime : Z }.

Record HeatDistributorSettings := {
  TemperatureLimit : Z; FanSpeedBelow : Z; FanSpeedAbove : Z
}.

Record SilentHours := {
  On : Z; StartingHour : Z; StartingMinute : Z;
  EndingHour : Z; EndingMinute : Z
}.

Record TrickleDays := { Weekdays : Z; Weekends : Z }.

Definition Time_make (v : list Z) : Result Time :=
  match v with
  | [x; y; z; t] =>
      Ok {| DayOfWeek := x; Hour := y; Minute := z; Second := t |}
  | _ => Raise (TypeError "Expected 4 arguments")
  end.

Definition LightSensorSettings_make (v : list Z)
  : Result LightSensorSettings :=
  match v with
  | [x; y] => Ok {| DelayedStart := x; RunningTime := y |}
  | _ => Raise (TypeError "Expected 2 arguments")
  end.

Definition HeatDistributorSettings_make (v : list Z)
  : Result HeatDistributorSettings :=
  match v with
  | [x; y; z] =>
      Ok {| TemperatureLimit := x; FanSpeedBelow := y; FanSpeedAbove := z |}
  | _ => Raise (TypeError "Expected 3 arguments")
  end.

Definition SilentHours_make (v : list Z) : Result SilentHours :=
  match v with
  | [x; y; z; t; u] =>
      Ok {| On := x; StartingHour := y; StartingMinute := z;
            EndingHour := t; EndingMinute := u |}
  | _ => Raise (TypeError "Expected 5 arguments")
  end.

Definition TrickleDays_make (v : list Z) : Result TrickleDays :=
  match v with
  | [x; y] => Ok {| Weekdays := x; Weekends := y |}
  | _ => Raise (TypeError "Expected 2 arguments")
  end.

(** [bool(n)] of an integer, as the integer [pack] sees. *)
Definition py_bool (n : Z) : Z := Z.b2z (negb (n =? 0)).

(** [x in (a, b, ...)] on integers. *)
Definition py_in (x : Z) (t : list Z) : bool := existsb (Z.eqb x) t.

(** A [datetime.time]: hour and minute (the fields the client reads). *)
Record time_of_day := { t_hour : Z; t_minute : Z }.

(** What [setTimeToNow] reads of [datetime.datetime.now()]. *)
Record datetime := {
  dt_isoweekday : Z; dt_hour : Z; dt_minute : Z; dt_second : Z
}.

(** ** [BleFan]: hexadecimal and ASCII getters *)

Definition hexdigit (d : Z) : byte :=
  byte_of_Z (if d <? 10 then 48 + d else 87 + d).

(** [binascii.b2a_hex(val)]: two lower-case hexadecimal digits per byte. *)
Fixpoint b2a_hex (val : list byte) : list byte :=
  match val with
  | [] => []
  | x :: r =>
      hexdigit (Z_of_byte x / 16) :: hexdigit (Z_of_byte x mod 16)
        :: b2a_hex r
  end.

Definition _bToStr (val : list byte) : Result str :=
  decode (OfBytes (b2a_hex val)) UTF8.

Definition getModelNumber : M str :=
  data <- _readHandle (ByHandle 13) ;;
  lift (decode (OfBytes data) ASCII).

Definition getSerialNumber : M str :=
  data <- _readHandle (ByHandle 11) ;;
  lift (decode (OfBytes data) ASCII).

Definition getHardwareRevision : M str :=
  data <- _readHandle (ByHandle 15) ;;
  lift (decode (OfBytes data) ASCII).

Definition getFirmwareRevision : M str :=
  data <- _readHandle (ByHandle 17) ;;
  lift (decode (OfBytes data) ASCII).

Definition getSoftwareRevision : M str :=
  data <- _readHandle (ByHandle 19) ;;
  lift (decode (OfBytes data) ASCII).

Definition getManufacturer : M str :=
  data <- _readHandle (ByHandle 21) ;;
  lift (decode (OfBytes data) ASCII).

Definition getIsClockSet : M str :=
  uuid <- chars_getitem CHARACTERISTIC_STATUS ;;
  data <- _readUUID uuid ;;
  lift (_bToStr data).

Definition getLed : M str :=
  uuid <- chars_getitem CHARACTERISTIC_LED ;;
  data <- _readUUID uuid ;;
  lift (_bToStr data).

(** ** [BleFan]: the remaining PAX characteristics *)

(** The function ends without a [return] for a byte above 4: the result is
    then [None]. *)
Definition getMode : M (option string) :=
  uuid <- chars_getitem CHARACTERISTIC_MODE ;;
  data <- _readUUID uuid ;;
  v <- lift (Struct.unpack [Struct.fB] data) ;;
  v0 <- lift (getitem v 0) ;;
  if v0 =? 0 then ret (Some "MultiMode")
  else if v0 =? 1 then ret (Some "DraftShutterMode")
  else if v0 =? 2 then ret (Some "WallSwitchExtendedRuntimeMode")
  else if v0 =? 3 then ret (Some "WallSwitchNoExtendedRuntimeMode")
  else if v0 =? 4 then ret (Some "HeatDistributionMode")
  else ret None.

Definition setSensorsSensitivity (humidity light : Z) : M unit :=
  (if (humidity >? 3) || (humidity <? 0)
   then raise (ValueError "Humidity sensitivity must be between 0-3")
   else ret tt) ;;
  (if (light >? 3) || (light <? 0)
   then raise (ValueError "Light sensitivity must be between 0-3")
   else ret tt) ;;
  value <- lift (Struct.pack [Struct.fB; Struct.fB; Struct.fB; Struct.fB]
                   [py_bool humidity; humidity; py_bool light; light]) ;;
  _writeUUID (ByName CHARACTERISTIC_SENSITIVITY) value.

Definition setLightSensorSettings (delayed running : Z) : M unit :=
  (if negb (py_in delayed [0; 5; 10])
   then raise (ValueError "Delayed must be 0, 5 or 10 minutes")
   else ret tt) ;;
  (if negb (py_in running [5; 10; 15; 30; 60])
   then raise (ValueError "Running time must be 5, 10, 15, 30 or 60 minutes")
   else ret tt) ;;
  data <- lift (Struct.pack [Struct.fB; Struct.fB] [delayed; running]) ;;
  _writeUUID (ByName CHARACTERISTIC_TIME_FUNCTIONS) data.

Definition getLightSensorSettings : M LightSensorSettings :=
  data <- _readUUID (ByName CHARACTERISTIC_TIME_FUNCTIONS) ;;
  v <- lift (Struct.unpack [Struct.fB; Struct.fB] data) ;;
  lift (LightSensorSettings_make v).

Definition getHeatDistributor : M HeatDistributorSettings :=
  data <- _readUUID (ByName CHARACTERISTIC_TEMP_HEAT_DISTRIBUTOR) ;;
  v <- lift (Struct.unpack [Struct.fB; Struct.fH; Struct.fH] data) ;;
  lift (HeatDistributorSettings_make v).

Definition setAutomaticCycles (setting : Z) : M unit :=
  (if (setting <? 0) || (setting >? 3)
   then raise (ValueError "Setting must be between 0-3")
   else ret tt) ;;
  uuid <- chars_getitem CHARACTERISTIC_AUTOMATIC_CYCLES ;;
  data <- lift (Struct.pack [Struct.fB] [setting]) ;;
  _writeUUID uuid data.

Definition getAutomaticCycles : M Z :=
  uuid <- chars_getitem CHARACTERISTIC_AUTOMATIC_CYCLES ;;
  data <- _readUUID uuid ;;
  v <- lift (Struct.unpack [Struct.fB] data) ;;
  lift (getitem v 0).

Definition setTime (dayofweek hour minute second : Z) : M unit :=
  uuid <- chars_getitem CHARACTERISTIC_CLOCK ;;
  data <- lift (Struct.pack [Struct.fB; Struct.fB; Struct.fB; Struct.fB]
                  [dayofweek; hour; minute; second]) ;;
  _writeUUID uuid data.

Definition getTime : M Time :=
  uuid <- chars_getitem CHARACTERISTIC_CLOCK ;;
  data <- _readUUID uuid ;;
  v <- lift (Struct.unpack [Struct.fB; Struct.fB; Struct.fB; Struct.fB]
               data) ;;
  lift (Time_make v).

(** [now = datetime.datetime.now()] is the argument. *)
Definition setTimeToNow (now : datetime) : M unit :=
  setTime (dt_isoweekday now) (dt_hour now) (dt_minute now) (dt_second now).

(** The payload is packed before the registry is consulted. *)
Definition setSilentHours (on : bool) (startingTime endingTime : time_of_day)
  : M unit :=
  _LOGGER DEBUG "Writing silent hours %s %s %s %s" ;;
  value <- lift (Struct.pack
                   [Struct.fB; Struct.fB; Struct.fB; Struct.fB; Struct.fB]
                   [Z.b2z on; t_hour startingTime; t_minute startingTime;
                    t_hour endingTime; t_minute endingTime]) ;;
  uuid <- chars_getitem CHARACTERISTIC_NIGHT_MODE ;;
  _writeUUID uuid value.

Definition getSilentHours : M SilentHours :=
  uuid <- chars_getitem CHARACTERISTIC_NIGHT_MODE ;;
  data <- _readUUID uuid ;;
  v <- lift (Struct.unpack
               [Struct.fB; Struct.fB; Struct.fB; Struct.fB; Struct.fB]
               data) ;;
  lift (SilentHours_make v).

Definition setTrickleDays (weekdays weekends : Z) : M unit :=
  uuid <- chars_getitem CHARACTERISTIC_BASIC_VENTILATION ;;
  data <- lift (Struct.pack [Struct.fB; Struct.fB] [weekdays; weekends]) ;;
  _writeUUID uuid data.

Definition getTrickleDays : M TrickleDays :=
  uuid <- chars_getitem CHARACTERISTIC_BASIC_VENTILATION ;;
  data <- _readUUID uuid ;;
  v <- lift (Struct.unpack [Struct.fB; Struct.fB] data) ;;
  lift (TrickleDays_make v).

Definition getReset : M (list byte) :=
  uuid <- chars_getitem CHARACTERISTIC_RESET ;;
  _readUUID uuid.

Definition resetDevice : M unit :=
  uuid <- chars_getitem CHARACTERISTIC_RESET ;;
  data <- lift (Struct.pack [Struct.fI] [120]) ;;
  _writeUUID uuid data.

Definition resetValues : M unit :=
  uuid <- chars_getitem CHARACTERISTIC_RESET ;;
  data <- lift (Struct.pack [Struct.fI] [85]) ;;
  _writeUUID uuid data.

(** ** Specification-side definitions for the remaining characteristics *)

(** The values an unsigned one-byte field can hold. *)
Definition is_byte (v : Z) : Prop := 0 <= v <= 255.

(** What [datetime.datetime.now()] can return: ISO weekday 1 to 7, hour
    below 24, minute and second below 60. *)
Definition valid_datetime (now : datetime) : Prop :=
  1 <= dt_isoweekday now <= 7 /\ 0 <= dt_hour now <= 23 /\
  0 <= dt_minute now <= 59 /\ 0 <= dt_second now <= 59.

(** What a [datetime.time] can hold. *)
Definition valid_time (t : time_of_day) : Prop :=
  0 <= t_hour t <= 23 /\ 0 <= t_minute t <= 59.

(** The modes of the fan, by the value of the mode byte. *)
Definition mode_names : list string :=
  [ "MultiMode"; "DraftShutterMode"; "WallSwitchExtendedRuntimeMode";
    "WallSwitchNoExtendedRuntimeMode"; "HeatDistributionMode" ].

(** A connected client whose mode characteristic holds the byte 5. *)
Definition unknown_mode_world : World :=
  example_world (Some live_client)
    (fun s => if Specifier_eq_dec s (ByName CHARACTERISTIC_MODE)
              then Some [x05] else None)
    (radio_of []) false.

(** The code point of a hexadecimal digit: ['0'..'9'], ['a'..'f']. *)
Definition hexcode (d : Z) : Z := if d <? 10 then 48 + d else 87 + d.

(** The getters of the device-information strings, each with the handle it
    reads. *)
Definition device_information_getters : list (M str * Z) :=
  [ (getModelNumber, 13); (getSerialNumber, 11); (getHardwareRevision, 15);
    (getFirmwareRevision, 17); (getSoftwareRevision, 19);
    (getManufacturer, 21) ].

(** A connected client whose handle 21 holds the bytes of ["PAX"]. *)
Definition manufacturer_world : World :=
  example_world (Some live_client)
    (fun s => if Specifier_eq_dec s (ByHandle 21)
              then Some [x50; x41; x58] else None)
    (radio_of []) false.

(** The text of two hexadecimal digits per byte, high digit first. *)
Fixpoint hex_text (val : list byte) : str :=
  match val with
  | [] => []
  | x :: r =>
      hexcode (Z_of_byte x / 16) :: hexcode (Z_of_byte x mod 16)
        :: hex_text r
  end.

(** A connected client whose every characteristic reads as the empty
    payload. *)
Definition empty_payload_world : World :=
  example_world (Some live_client) (fun _ => Some []) (radio_of []) false.

(** The code points UTF-8 can encode: the Unicode range without the
    surrogates. *)
Definition encodable (cp : Z) : Prop :=
  0 <= cp <= 1114111 /\ ~ 55296 <= cp <= 57343.

(** A connected client whose LED characteristic holds the bytes
    [01 ab]. *)
Definition led_world : World :=
  example_world (Some live_client)
    (fun s => if Specifier_eq_dec s (ByName CHARACTERISTIC_LED)
              then Some [x01; xab] else None)
    (radio_of []) false.

(** A client without a handle: the first resolution finds a device that
    refuses, the second a device that declines. *)
Definition two_devices_world : World :=
  example_world None (fun _ => None)
    (radio_of [Some refusing; Some declining]) false.
(** * Properties *)

(** ** Bytes and [struct] *)

Lemma Z_of_byte_range (x : byte) : 0 <= Z_of_byte x < 256.
Proof.
  unfold Z_of_byte. pose proof (Byte.to_N_bounded x). lia.
Qed.

Lemma Z_of_byte_of_Z (z : Z) : 0 <= z < 256 -> Z_of_byte (byte_of_Z z) = z.
Proof.
  intros Hz. unfold Z_of_byte, byte_of_Z.
  destruct (Byte.of_N (Z.to_N z)) as [x|] eqn:E.
  - apply Byte.to_of_N in E. rewrite E. apply Z2N.id. lia.
  - apply Byte.of_N_None_iff in E. lia.
Qed.

Lemma byte_of_Z_of_byte (x : byte) : byte_of_Z (Z_of_byte x) = x.
Proof.
  unfold Z_of_byte, byte_of_Z.
  rewrite N2Z.id, Byte.of_to_N. reflexivity.
Qed.

Module StructFacts.
Import Struct.

Lemma le_bytes_length (n : nat) (v : Z) : List.length (le_bytes n v) = n.
Proof.
  revert v. induction n as [|k IH]; intros v; simpl; [|rewrite IH]; reflexivity.
Qed.

Lemma le_value_le_bytes (n : nat) (v : Z) :
  le_value (le_bytes n v) = v mod 256 ^ Z.of_nat n.
Proof.
  revert v. induction n as [|k IH]; intros v.
  - simpl. now rewrite Z.mod_1_r.
  - cbn [le_bytes le_value]. rewrite IH.
    rewrite Z_of_byte_of_Z by (apply Z.mod_pos_bound; lia).
    rewrite Nat2Z.inj_succ, Z.pow_succ_r by lia.
    rewrite Z.rem_mul_r by lia. reflexivity.
Qed.

Lemma unpack_one_le_bytes (c : Code) (v : Z) :
  in_range c v = true -> unpack_one c (le_bytes (size c) v) = v.
Proof.
  intros Hr. unfold unpack_one.
  destruct c; cbn [size in_range] in *; rewrite le_value_le_bytes;
    apply andb_prop in Hr; destruct Hr as [Hlo Hhi];
    apply Z.leb_le in Hlo, Hhi.
  - apply Z.mod_small. cbn. lia.
  - change (256 ^ Z.of_nat 1) with 256.
    destruct (Z.ltb_spec (v mod 256) 128) as [Hlt|Hge].
    + destruct (Z.lt_ge_cases v 0) as [Hneg|Hpos].
      * rewrite <- (Z.mod_add v 1 256) in Hlt by lia.
        rewrite Z.mod_small in Hlt by lia. lia.
      * apply Z.mod_small. lia.
    + destruct (Z.lt_ge_cases v 0) as [Hneg|Hpos].
      * rewrite <- (Z.mod_add v 1 256) by lia.
        rewrite Z.mod_small by lia. lia.
      * rewrite Z.mod_small in Hge by lia. lia.
  - apply Z.mod_small. cbn. lia.
  - apply Z.mod_small. cbn. lia.
Qed.

Lemma pack_one_length (c : Code) (v : Z) (x : list byte) :
  pack_one c v = Ok x -> List.length x = size c.
Proof.
  unfold pack_one. destruct (in_range c v); [|discriminate].
  intros [= <-]. apply le_bytes_length.
Qed.

Lemma pack_length (fmt : list Code) :
  forall vals data, pack fmt vals = Ok data -> List.length data = calcsize fmt.
Proof.
  induction fmt as [|c fmt IH]; intros [|v vals] data; cbn [pack];
    try discriminate.
  - intros [= <-]. reflexivity.
  - destruct (pack_one c v) as [x|] eqn:E1; [|discriminate]. cbn [rbind].
    destruct (pack fmt vals) as [r|] eqn:E2; [|discriminate]. cbn [rbind].
    intros [= <-]. rewrite length_app. cbn [calcsize fold_right].
    rewrite (pack_one_length _ _ _ E1). f_equal. exact (IH _ _ E2).
Qed.

Lemma unpack_fields_pack (fmt : list Code) :
  forall vals data, pack fmt vals = Ok data -> unpack_fields fmt data = vals.
Proof.
  induction fmt as [|c fmt IH]; intros [|v vals] data; cbn [pack];
    try discriminate.
  - reflexivity.
  - destruct (pack_one c v) as [x|] eqn:E1; [|discriminate]. cbn [rbind].
    destruct (pack fmt vals) as [r|] eqn:E2; [|discriminate]. cbn [rbind].
    intros [= <-]. cbn [unpack_fields].
    pose proof (pack_one_length _ _ _ E1) as Hlen.
    rewrite <- Hlen at 1.
    rewrite firstn_app, Nat.sub_diag, firstn_O, firstn_all, app_nil_r.
    rewrite <- Hlen, skipn_app, Nat.sub_diag, skipn_all, skipn_O.
    cbn [app]. f_equal.
    + unfold pack_one in E1. destruct (in_range c v) eqn:Hr; [|discriminate].
      injection E1 as <-. now apply unpack_one_le_bytes.
    + now apply IH.
Qed.

(** Unpacking what [pack] produced gives the values back. *)
Lemma unpack_pack (fmt : list Code) (vals : list Z) (data : list byte) :
  pack fmt vals = Ok data -> unpack fmt data = Ok vals.
Proof.
  intros Hp. unfold unpack.
  rewrite (pack_length _ _ _ Hp), Nat.eqb_refl.
  now rewrite (unpack_fields_pack _ _ _ Hp).
Qed.

Lemma pack_s_length (n : nat) (data : list byte) :
  List.length (pack_s n data) = n.
Proof.
  unfold pack_s. rewrite length_firstn, length_app, repeat_length. lia.
Qed.

End StructFacts.

(** ** The trigger of the mode byte *)

Lemma testbit_div (m n : Z) :
  0 <= n -> Z.b2z (Z.testbit m n) = (m / 2 ^ n) mod 2.
Proof. intros Hn. now apply Z.testbit_spec'. Qed.

Lemma land_shiftr_1 (m n : Z) :
  0 <= n -> Z.land (Z.shiftr m n) 1 = Z.b2z (Z.testbit m n).
Proof.
  intros Hn. change 1 with (Z.ones 1).
  rewrite Z.land_ones, Z.shiftr_div_pow2, testbit_div by lia.
  reflexivity.
Qed.

Lemma land_3 (m : Z) : Z.land m 3 = low_two_bits m.
Proof.
  unfold low_two_bits. change 3 with (Z.ones 2).
  rewrite Z.land_ones by lia.
  rewrite !testbit_div by lia.
  change (2 ^ 2) with 4. change (2 ^ 0) with 1. change (2 ^ 1) with 2.
  rewrite Z.div_1_r. Z.div_mod_to_equations. lia.
Qed.

Lemma land_shiftr_6_3 (m : Z) :
  (Z.land (Z.shiftr m 6) 3 =? 3) = Z.testbit m 6 && Z.testbit m 7.
Proof.
  rewrite land_3. unfold low_two_bits.
  rewrite !Z.shiftr_spec by lia. cbn [Z.add Pos.add].
  change (0 + 6) with 6. change (1 + 6) with 7.
  destruct (Z.testbit m 6), (Z.testbit m 7); reflexivity.
Qed.

(** The bit tests of [getState] compute the decision list of the
    specification, on every integer. *)
Lemma getState_trigger_spec (m : Z) :
  getState_trigger m = trigger_spec m.
Proof.
  unfold getState_trigger, trigger_spec.
  rewrite land_shiftr_1 by lia. rewrite land_shiftr_6_3, land_3.
  destruct (Z.testbit m 4); reflexivity.
Qed.

(** ** Running the coroutines *)

Ltac unfold_monad :=
  unfold bind, ret, raise, lift, try_except, _LOGGER, chars_getitem,
    _readUUID, _readHandle, _writeUUID, with_dev, read_gatt_char,
    write_gatt_char.

Lemma getitem_nth (t : list Z) (i : nat) (x : Z) :
  nth_error t i = Some x -> getitem t i = Ok x.
Proof. intros H. unfold getitem. now rewrite H. Qed.

(** A read through the registry on a live handle returns the stored
    payload and is recorded. *)
Lemma read_registered (w : World) (c : BleakClient) (uuid : Specifier)
  (data : list byte) :
  _dev w = Some c -> is_connected c = true -> gatt w uuid = Some data ->
  _readUUID uuid w = (Ok data, add_event (EvRead uuid) w).
Proof.
  intros Hd Hc Hg. unfold_monad. rewrite Hd, Hc. cbn. now rewrite Hg.
Qed.

(** ** The sensor data *)

Section GetState.

Variable rt : Runtime.

Lemma getState_run (w : World) (c : BleakClient) (uuid : Specifier)
  (v0 v1 v2 v3 mode t5 t6 : Z) (data : list byte) :
  _dev w = Some c -> is_connected c = true ->
  device_chars w CHARACTERISTIC_SENSOR_DATA = Some uuid ->
  gatt w uuid = Some data ->
  Struct.pack sensor_data_format [v0; v1; v2; v3; mode; t5; t6] = Ok data ->
  getState rt w =
    (Ok (decoded_state rt v0 v1 v2 v3 mode),
     add_log (DEBUG, "Read Fan States: %s") (add_event (EvRead uuid) w)).
Proof.
  intros Hd Hc Hu Hg Hp.
  apply StructFacts.unpack_pack in Hp.
  unfold getState.
  unfold bind at 1. unfold chars_getitem. rewrite Hu.
  unfold bind at 1. rewrite (read_registered _ _ _ _ Hd Hc Hg).
  unfold bind at 1. unfold lift at 1.
  change [Struct.fH; Struct.fH; Struct.fH; Struct.fH; Struct.fB; Struct.fH;
          Struct.fB] with sensor_data_format.
  rewrite Hp.
  unfold_monad. cbn [getitem nth_error].
  unfold decoded_state, math_log2.
  destruct (v0 >? 30) eqn:E.
  - assert (Hpos : (v0 - 30 <=? 0) = false) by (apply Z.leb_gt; lia).
    rewrite Hpos. reflexivity.
  - reflexivity.
Qed.

End GetState.

(** C2: for every mode byte, the trigger of the state that [getState]
    decodes is the one the ordered decision list gives, the first match
    winning: bit 4 set is Boost; otherwise bits 6 and 7 both set is Switch;
    otherwise the low two bits select Trickle (1), Light (2) or Humidity (3)
    ventilation; otherwise there is no trigger. *)
Theorem getState_trigger_priority (rt : Runtime) (w : World)
  (c : BleakClient) (uuid : Specifier) (v0 v1 v2 v3 mode t5 t6 : Z)
  (data : list byte) :
  _dev w = Some c -> is_connected c = true ->
  device_chars w CHARACTERISTIC_SENSOR_DATA = Some uuid ->
  gatt w uuid = Some data ->
  Struct.pack sensor_data_format [v0; v1; v2; v3; mode; t5; t6] = Ok data ->
  exists st w',
    getState rt w = (Ok st, w') /\
    st_Mode st = trigger_spec mode /\
    st_Mode st =
      (if Z.testbit mode 4 then "Boost"
       else if Z.testbit mode 6 && Z.testbit mode 7 then "Switch"
       else if mode mod 4 =? 1 then "Trickle ventilation"
       else if mode mod 4 =? 2 then "Light ventilation"
       else if mode mod 4 =? 3 then "Humidity ventilation"
       else "No trigger").
Proof.
  intros Hd Hc Hu Hg Hp.
  eexists; eexists.
  split; [exact (getState_run rt _ _ _ _ _ _ _ _ _ _ _ Hd Hc Hu Hg Hp)|].
  cbn [st_Mode decoded_state]. rewrite getState_trigger_spec.
  split; [reflexivity|].
  unfold trigger_spec. rewrite <- land_3.
  change 3 with (Z.ones 2). rewrite Z.land_ones by lia. reflexivity.
Qed.

Lemma getState_trigger_priority_witness :
  exists st w',
    getState example_runtime example_sensor_world = (Ok st, w') /\
    st_Mode st = trigger_spec 16 /\ st_Mode st = "Boost".
Proof.
  destruct (getState_trigger_priority example_runtime example_sensor_world
              live_client (ByName CHARACTERISTIC_SENSOR_DATA)
              94 50 10 1800 16 0 0 example_sensor_data
              eq_refl eq_refl eq_refl eq_refl eq_refl)
    as (st & w' & Hrun & Hspec & Hbits).
  exists st, w'. split; [exact Hrun|]. split; [exact Hspec|exact Hbits].
Defined.

(** C1 (amended): for every sensor-data payload (four unsigned 16-bit raw
    values, the mode byte, and the two trailing fields) [getState] returns
    a state, raising no error: the humidity is
    [round(log2(raw0 - 30) * 10, 2)] when [raw0 > 30] and the integer 0
    otherwise, so that no logarithm of a non-positive value is attempted;
    the temperature is [raw1 / 4 - 2.6]; light and speed are [raw2] and
    [raw3] unchanged.  On the payload (94, 50, 10, 1800, mode 0x10), with a
    [log2] that is exact on 64 and a [round] that leaves 60.0 as it is, the
    state is humidity 60.0, temperature 9.9 (the float result of
    [12.5 - 2.6]), light 10, speed 1800 and trigger Boost. *)
Theorem getState_decodes (rt : Runtime) (w : World)
  (c : BleakClient) (uuid : Specifier) (v0 v1 v2 v3 mode t5 t6 : Z)
  (data : list byte) :
  _dev w = Some c -> is_connected c = true ->
  device_chars w CHARACTERISTIC_SENSOR_DATA = Some uuid ->
  gatt w uuid = Some data ->
  Struct.pack sensor_data_format [v0; v1; v2; v3; mode; t5; t6] = Ok data ->
  exists st w',
    getState rt w = (Ok st, w') /\
    (30 < v0 ->
     st_Humidity st =
       NFloat (builtin_round rt
                 (libm_log2 rt (float_of_int (v0 - 30)) * 10)%float 2)) /\
    (v0 <= 30 -> st_Humidity st = NInt 0) /\
    st_Temp st = (float_of_int v1 / 4 - 2.6)%float /\
    st_Light st = v2 /\
    st_RPM st = v3 /\
    (v0 = 94 -> v1 = 50 -> v2 = 10 -> v3 = 1800 -> mode = 16 ->
     libm_log2 rt 64%float = 6%float ->
     builtin_round rt 60%float 2 = 60%float ->
     st = {| st_Humidity := NFloat 60; st_Temp := 0x1.3cccccccccccdp+3%float;
             st_Light := 10; st_RPM := 1800; st_Mode := "Boost" |}).
Proof.
  intros Hd Hc Hu Hg Hp.
  eexists; eexists.
  split; [exact (getState_run rt _ _ _ _ _ _ _ _ _ _ _ Hd Hc Hu Hg Hp)|].
  cbn [st_Humidity st_Temp st_Light st_RPM decoded_state].
  repeat split.
  - intros Hgt. apply Z.gtb_lt in Hgt. now rewrite Hgt.
  - intros Hle. destruct (v0 >? 30) eqn:E; [|reflexivity].
    apply Z.gtb_lt in E. lia.
  - intros -> -> -> -> -> Hlog Hround. unfold decoded_state.
    change (94 >? 30) with true. cbv iota.
    change (float_of_int (94 - 30)) with 64%float. rewrite Hlog.
    change (6 * 10)%float with 60%float. rewrite Hround.
    reflexivity.
Qed.

Lemma getState_decodes_witness :
  exists st w',
    getState example_runtime example_sensor_world = (Ok st, w') /\
    st = {| st_Humidity := NFloat 60; st_Temp := 0x1.3cccccccccccdp+3%float;
            st_Light := 10; st_RPM := 1800; st_Mode := "Boost" |}.
Proof.
  destruct (getState_decodes example_runtime example_sensor_world
              live_client (ByName CHARACTERISTIC_SENSOR_DATA)
              94 50 10 1800 16 0 0 example_sensor_data
              eq_refl eq_refl eq_refl eq_refl eq_refl)
    as (st & w' & Hrun & _ & _ & _ & _ & _ & Hex).
  exists st, w'. split; [exact Hrun|].
  apply Hex; reflexivity.
Defined.

(** C1, as stated, fails on its concrete payload: the temperature decoded
    from [raw1 = 50] is the float [12.5 - 2.6], which is not 10.0. *)
Lemma getState_temperature_counterexample :
  match fst (getState example_runtime example_sensor_world) with
  | Ok st => PrimFloat.eqb (st_Temp st) 10
  | Raise _ => true
  end = false.
Proof. vm_compute. reflexivity. Qed.

(** ** Fan speeds *)

Lemma legal_speed_iff (v : Z) :
  legal_speed v <-> v mod 25 = 0 /\ 0 <= v <= 2500.
Proof.
  split.
  - intros (k & Hk & ->). split; [|lia].
    rewrite Z.mul_comm. apply Z.mod_mul. lia.
  - intros [Hm Hr]. exists (v / 25). Z.div_mod_to_equations. lia.
Qed.

Lemma setFanSpeedSettings_loop_ok (vals : list Z) :
  Forall legal_speed vals -> setFanSpeedSettings_loop vals = Ok tt.
Proof.
  induction 1 as [|v vals Hv _ IH]; [reflexivity|].
  apply legal_speed_iff in Hv. destruct Hv as [Hm Hr].
  cbn [setFanSpeedSettings_loop]. rewrite Hm. cbn [Z.eqb negb].
  replace (v >? 2500) with false
    by (rewrite Z.gtb_ltb; symmetry; apply Z.ltb_ge; lia).
  replace (v <? 0) with false by (symmetry; apply Z.ltb_ge; lia).
  exact IH.
Qed.

Lemma setFanSpeedSettings_loop_rejects (vals : list Z) :
  ~ Forall legal_speed vals ->
  exists msg, setFanSpeedSettings_loop vals = Raise (ValueError msg).
Proof.
  induction vals as [|v vals IH]; intros Hn.
  - exfalso. apply Hn. constructor.
  - cbn [setFanSpeedSettings_loop].
    destruct (Z.eqb_spec (v mod 25) 0) as [Hm|Hm]; cbn [negb];
      [|eexists; reflexivity].
    destruct (Z.gtb_spec v 2500) as [Hhi|Hhi]; cbn [orb];
      [eexists; reflexivity|].
    destruct (Z.ltb_spec v 0) as [Hlo|Hlo]; [eexists; reflexivity|].
    apply IH. intros Hall. apply Hn. constructor; [|exact Hall].
    apply legal_speed_iff. lia.
Qed.

Lemma pack_H_le16 (v : Z) :
  0 <= v <= 65535 -> Struct.pack_one Struct.fH v = Ok (le16 v).
Proof.
  intros Hr. unfold Struct.pack_one. cbn [Struct.in_range].
  replace (0 <=? v) with true by (symmetry; apply Z.leb_le; lia).
  replace (v <=? 65535) with true by (symmetry; apply Z.leb_le; lia).
  cbn [andb Struct.size Struct.le_bytes]. unfold le16.
  do 3 f_equal. f_equal. apply Z.mod_small. Z.div_mod_to_equations. lia.
Qed.

Lemma pack_HHH (x y z : Z) :
  0 <= x <= 65535 -> 0 <= y <= 65535 -> 0 <= z <= 65535 ->
  Struct.pack [Struct.fH; Struct.fH; Struct.fH] [x; y; z]
  = Ok (le16 x ++ le16 y ++ le16 z).
Proof.
  intros Hx Hy Hz. cbn [Struct.pack].
  rewrite !pack_H_le16 by assumption. reflexivity.
Qed.

Lemma legal_speed_uint16 (v : Z) : legal_speed v -> 0 <= v <= 65535.
Proof. intros (k & Hk & ->). lia. Qed.

(** With legal speeds, a handle and a registered characteristic, the call
    is the transport write of the packed triple. *)
Lemma setFanSpeedSettings_run (humidity light trickle : Z) (w : World)
  (c : BleakClient) (uuid : Specifier) :
  legal_speed humidity -> legal_speed light -> legal_speed trickle ->
  _dev w = Some c ->
  device_chars w CHARACTERISTIC_LEVEL_OF_FAN_SPEED = Some uuid ->
  setFanSpeedSettings humidity light trickle w =
    write_gatt_char c uuid (le16 humidity ++ le16 light ++ le16 trickle)
      (add_log (DEBUG, "Calima setFanSpeedSettings: %s %s %s") w).
Proof.
  intros Hh Hl Ht Hd Hu. unfold setFanSpeedSettings.
  unfold bind at 1. unfold lift at 1.
  rewrite setFanSpeedSettings_loop_ok by (repeat constructor; assumption).
  unfold bind at 1. unfold _LOGGER at 1.
  unfold bind at 1. unfold chars_getitem.
  cbn [device_chars add_log]. rewrite Hu.
  unfold bind at 1. unfold lift at 1.
  rewrite pack_HHH by (apply legal_speed_uint16; assumption).
  unfold _writeUUID, with_dev. cbn [_dev add_log]. rewrite Hd.
  reflexivity.
Qed.

(** C3: for every integer triple, [setFanSpeedSettings] raises a
    [ValueError] when one of the three values is not in {0, 25, ..., 2500}
    (not a multiple of 25, or outside [0, 2500]), and then nothing at all
    has happened: the world, and with it the record of GATT requests, is
    unchanged.  When all three are legal, the transport is asked to write
    the three values as little-endian 16-bit fields to the fan-speed
    characteristic; on a live handle the write succeeds and the peripheral
    holds that payload. *)
Theorem setFanSpeedSettings_validation (humidity light trickle : Z)
  (w : World) :
  (~ (legal_speed humidity /\ legal_speed light /\ legal_speed trickle) ->
   exists msg,
     setFanSpeedSettings humidity light trickle w
     = (Raise (ValueError msg), w)) /\
  (legal_speed humidity /\ legal_speed light /\ legal_speed trickle ->
   forall c uuid,
     _dev w = Some c ->
     device_chars w CHARACTERISTIC_LEVEL_OF_FAN_SPEED = Some uuid ->
     exists r w',
       setFanSpeedSettings humidity light trickle w = (r, w') /\
       trace w' =
         EvWrite uuid (le16 humidity ++ le16 light ++ le16 trickle)
           :: trace w /\
       (is_connected c = true ->
        r = Ok tt /\
        gatt w' uuid = Some (le16 humidity ++ le16 light ++ le16 trickle))).
Proof.
  split.
  - intros Hn.
    destruct (setFanSpeedSettings_loop_rejects [humidity; light; trickle])
      as [msg Hmsg].
    { intros Hall. apply Hn.
      inversion Hall as [|? ? H1 Hall1]; subst.
      inversion Hall1 as [|? ? H2 Hall2]; subst.
      inversion Hall2 as [|? ? H3 _]; subst. auto. }
    exists msg. unfold setFanSpeedSettings, bind at 1, lift at 1.
    now rewrite Hmsg.
  - intros (Hh & Hl & Ht) c uuid Hd Hu.
    rewrite (setFanSpeedSettings_run _ _ _ _ _ _ Hh Hl Ht Hd Hu).
    unfold write_gatt_char.
    destruct (is_connected c); eexists; eexists;
      (split; [reflexivity|]); (split; [reflexivity|]).
    + intros _. split; [reflexivity|]. cbn [gatt store].
      destruct (Specifier_eq_dec uuid uuid); [reflexivity|contradiction].
    + discriminate.
Qed.

Lemma legal_speed_example (k : Z) : 0 <= k <= 100 -> legal_speed (25 * k).
Proof. intros Hk. exists k. split; [exact Hk|reflexivity]. Qed.

Lemma setFanSpeedSettings_validation_witness :
  (exists msg,
     setFanSpeedSettings 2250 1626 1000 blank_world
     = (Raise (ValueError msg), blank_world)) /\
  (exists r w',
     setFanSpeedSettings 2250 1625 1000 blank_world = (r, w') /\
     trace w' =
       [EvWrite (ByName CHARACTERISTIC_LEVEL_OF_FAN_SPEED)
          [xca; x08; x59; x06; xe8; x03]] /\
     r = Ok tt).
Proof.
  split.
  - apply (proj1 (setFanSpeedSettings_validation 2250 1626 1000 blank_world)).
    intros (_ & (k & _ & Hk) & _). lia.
  - destruct (proj2 (setFanSpeedSettings_validation 2250 1625 1000 blank_world)
                (conj (legal_speed_example 90 ltac:(lia))
                   (conj (legal_speed_example 65 ltac:(lia))
                      (legal_speed_example 40 ltac:(lia))))
                live_client (ByName CHARACTERISTIC_LEVEL_OF_FAN_SPEED)
                eq_refl eq_refl)
      as (r & w' & Hrun & Htrace & Hlive).
    exists r, w'. split; [exact Hrun|]. split; [exact Htrace|].
    exact (proj1 (Hlive eq_refl)).
Defined.

(** C5: for every fan-speed triple with each component in
    {0, 25, ..., 2500}, what [setFanSpeedSettings] writes is what
    [getFanSpeedSettings] reads back: the three values are packed as
    little-endian 16-bit fields, unpacking that payload gives the triple
    again, and on a connected client a set followed by a get returns the
    triple unchanged. *)
Theorem fan_speed_round_trip (humidity light trickle : Z) (w : World)
  (c : BleakClient) (uuid : Specifier) :
  legal_speed humidity -> legal_speed light -> legal_speed trickle ->
  _dev w = Some c -> is_connected c = true ->
  device_chars w CHARACTERISTIC_LEVEL_OF_FAN_SPEED = Some uuid ->
  let v := {| fs_Humidity := humidity; fs_Light := light;
              fs_Trickle := trickle |} in
  let data := le16 humidity ++ le16 light ++ le16 trickle in
  Struct.pack [Struct.fH; Struct.fH; Struct.fH] [humidity; light; trickle]
  = Ok data /\
  rbind (Struct.unpack [Struct.fH; Struct.fH; Struct.fH] data) Fanspeeds_make
  = Ok v /\
  exists w1 w2,
    setFanSpeedSettings humidity light trickle w = (Ok tt, w1) /\
    trace w1 = EvWrite uuid data :: trace w /\
    getFanSpeedSettings w1 = (Ok v, w2).
Proof.
  intros Hh Hl Ht Hd Hc Hu v data.
  assert (Hp : Struct.pack [Struct.fH; Struct.fH; Struct.fH]
                 [humidity; light; trickle] = Ok data)
    by (apply pack_HHH; apply legal_speed_uint16; assumption).
  pose proof (StructFacts.unpack_pack _ _ _ Hp) as Hup.
  split; [exact Hp|]. split; [now rewrite Hup|].
  rewrite (setFanSpeedSettings_run _ _ _ _ _ _ Hh Hl Ht Hd Hu).
  fold data. unfold write_gatt_char. rewrite Hc.
  eexists; eexists. split; [reflexivity|]. split; [reflexivity|].
  unfold getFanSpeedSettings.
  unfold bind at 1. unfold chars_getitem.
  cbn [device_chars store add_event add_log]. rewrite Hu.
  unfold bind at 1.
  erewrite read_registered; [| exact Hd | exact Hc |].
  2:{ cbn [gatt store].
      destruct (Specifier_eq_dec uuid uuid); [reflexivity|contradiction]. }
  unfold bind at 1. unfold lift at 1. rewrite Hup.
  reflexivity.
Qed.

Lemma fan_speed_round_trip_witness :
  exists w1 w2,
    setFanSpeedSettings 2250 1625 1000 blank_world = (Ok tt, w1) /\
    getFanSpeedSettings w1
    = (Ok {| fs_Humidity := 2250; fs_Light := 1625; fs_Trickle := 1000 |},
       w2).
Proof.
  destruct (fan_speed_round_trip 2250 1625 1000 blank_world live_client
              (ByName CHARACTERISTIC_LEVEL_OF_FAN_SPEED)
              (legal_speed_example 90 ltac:(lia))
              (legal_speed_example 65 ltac:(lia))
              (legal_speed_example 40 ltac:(lia))
              eq_refl eq_refl eq_refl)
    as (_ & _ & w1 & w2 & Hset & _ & Hget).
  exists w1, w2. split; [exact Hset|exact Hget].
Defined.

(** ** Sensitivity *)

Lemma unpack_4B (x y z t : byte) :
  Struct.unpack [Struct.fB; Struct.fB; Struct.fB; Struct.fB] [x; y; z; t]
  = Ok [Z_of_byte x; Z_of_byte y; Z_of_byte z; Z_of_byte t].
Proof.
  unfold Struct.unpack. cbn. rewrite !Z.add_0_r. reflexivity.
Qed.

Lemma bytearray_in_range (l : list Z) :
  Forall (fun x => 0 <= x < 256) l -> bytearray l = Ok (map byte_of_Z l).
Proof.
  induction 1 as [|x l Hx _ IH]; [reflexivity|].
  cbn [bytearray map].
  replace (0 <=? x) with true by (symmetry; apply Z.leb_le; lia).
  replace (x <? 256) with true by (symmetry; apply Z.ltb_lt; lia).
  cbn [andb]. now rewrite IH.
Qed.

Lemma py_and_range (x y : byte) :
  0 <= py_and (Z_of_byte x) (Z_of_byte y) < 256.
Proof.
  unfold py_and. destruct (Z_of_byte x =? 0); apply Z_of_byte_range.
Qed.

(** C4: for every 4-byte sensitivity payload (humOn, hum, lightOn, light),
    [getSensorsSensitivity] returns the two on-flags as stored and each
    level forced to 0 when its on-flag is zero, whatever level is stored,
    and the stored level otherwise. *)
Theorem getSensorsSensitivity_normalises (w : World) (c : BleakClient)
  (humOn hum lightOn light : byte) :
  _dev w = Some c -> is_connected c = true ->
  gatt w (ByName CHARACTERISTIC_SENSITIVITY)
  = Some [humOn; hum; lightOn; light] ->
  exists s w',
    getSensorsSensitivity w = (Ok s, w') /\
    HumidityOn s = Z_of_byte humOn /\
    Humidity s = (if Z_of_byte humOn =? 0 then 0 else Z_of_byte hum) /\
    LightOn s = Z_of_byte lightOn /\
    Light s = (if Z_of_byte lightOn =? 0 then 0 else Z_of_byte light).
Proof.
  intros Hd Hc Hg. unfold getSensorsSensitivity.
  unfold bind at 1. rewrite (read_registered _ _ _ _ Hd Hc Hg).
  unfold bind at 1, lift at 1. rewrite unpack_4B.
  unfold bind at 1, lift at 1. cbn [Sensitivity_make].
  unfold bind at 1, lift at 1.
  cbn [HumidityOn Humidity LightOn Light].
  rewrite bytearray_in_range
    by (repeat constructor;
        first [ apply Z_of_byte_range | apply py_and_range ]).
  cbn [map]. unfold bind at 1, lift at 1. rewrite unpack_4B.
  rewrite !byte_of_Z_of_byte.
  rewrite !Z_of_byte_of_Z by apply py_and_range.
  cbn [Sensitivity_make lift].
  eexists; eexists. split; [reflexivity|].
  cbn [HumidityOn Humidity LightOn Light]. unfold py_and.
  repeat split.
  - destruct (Z.eqb_spec (Z_of_byte humOn) 0) as [->|]; reflexivity.
  - destruct (Z.eqb_spec (Z_of_byte lightOn) 0) as [->|]; reflexivity.
Qed.

Lemma getSensorsSensitivity_normalises_witness :
  exists w',
    getSensorsSensitivity example_sensitivity_world
    = (Ok {| HumidityOn := 0; Humidity := 0; LightOn := 1; Light := 2 |}, w').
Proof.
  destruct (getSensorsSensitivity_normalises example_sensitivity_world
              live_client x00 x03 x01 x02 eq_refl eq_refl eq_refl)
    as (s & w' & Hrun & H1 & H2 & H3 & H4).
  exists w'. rewrite Hrun. destruct s as [s1 s2 s3 s4].
  cbn in H1, H2, H3, H4. subst. reflexivity.
Defined.

(** ** Boost mode *)

Lemma multiple_of_25_iff (v : Z) : multiple_of_25 v <-> v mod 25 = 0.
Proof.
  split.
  - intros (k & ->). rewrite Z.mul_comm. apply Z.mod_mul. lia.
  - intros Hm. exists (v / 25). Z.div_mod_to_equations. lia.
Qed.

Lemma pack_BHH (on : bool) (speed seconds : Z) :
  0 <= speed <= 65535 -> 0 <= seconds <= 65535 ->
  Struct.pack boost_format [Z.b2z on; speed; seconds]
  = Ok (byte_of_Z (Z.b2z on) :: le16 speed ++ le16 seconds).
Proof.
  intros Hs Ht. unfold boost_format. cbn [Struct.pack].
  rewrite !pack_H_le16 by assumption.
  destruct on; reflexivity.
Qed.

Lemma setBoostMode_run (on : bool) (speed seconds : Z) (w : World)
  (c : BleakClient) (uuid : Specifier) (data : list byte) :
  speed mod 25 = 0 ->
  _dev w = Some c -> device_chars w CHARACTERISTIC_BOOST = Some uuid ->
  Struct.pack boost_format
    [Z.b2z on; if on then speed else 0; if on then seconds else 0] = Ok data ->
  setBoostMode on speed seconds w = write_gatt_char c uuid data w.
Proof.
  intros Hm Hd Hu Hp. unfold setBoostMode.
  rewrite Hm. cbn [Z.eqb negb].
  unfold bind at 1, ret at 1.
  unfold bind at 1. unfold chars_getitem. rewrite Hu.
  unfold bind at 1, lift at 1.
  replace (if negb on then 0 else speed) with (if on then speed else 0)
    by (destruct on; reflexivity).
  replace (if negb on then 0 else seconds) with (if on then seconds else 0)
    by (destruct on; reflexivity).
  change [Struct.fB; Struct.fH; Struct.fH] with boost_format.
  rewrite Hp. unfold _writeUUID, with_dev. now rewrite Hd.
Qed.

(** C6 (amended): for every call [setBoostMode(on, speed, seconds)]: a
    speed that is not a multiple of 25 is rejected with a [ValueError] and
    nothing is written.  When the speed is a multiple of 25 and [on] is
    false, the transport is asked to write a payload that decodes to
    (0, 0, 0), whatever speed and seconds were supplied; when [on] is true
    and speed and seconds both fit their unsigned 16-bit fields, the
    payload decodes to (1, speed, seconds). *)
Theorem setBoostMode_payload (on : bool) (speed seconds : Z) (w : World) :
  (~ multiple_of_25 speed ->
   exists msg,
     setBoostMode on speed seconds w = (Raise (ValueError msg), w)) /\
  (multiple_of_25 speed ->
   (on = true -> 0 <= speed <= 65535 /\ 0 <= seconds <= 65535) ->
   forall c uuid,
     _dev w = Some c -> device_chars w CHARACTERISTIC_BOOST = Some uuid ->
     exists data r w',
       setBoostMode on speed seconds w = (r, w') /\
       trace w' = EvWrite uuid data :: trace w /\
       Struct.unpack boost_format data
       = Ok (if on then [1; speed; seconds] else [0; 0; 0]) /\
       (is_connected c = true -> r = Ok tt /\ gatt w' uuid = Some data)).
Proof.
  split.
  - intros Hn. rewrite multiple_of_25_iff in Hn.
    unfold setBoostMode.
    destruct (Z.eqb_spec (speed mod 25) 0) as [Hm|Hm]; [contradiction|].
    cbn [negb]. eexists. reflexivity.
  - intros Hm Hrange c uuid Hd Hu. apply multiple_of_25_iff in Hm.
    assert (Hp : exists data,
               Struct.pack boost_format
                 [Z.b2z on; if on then speed else 0; if on then seconds else 0]
               = Ok data).
    { destruct on.
      - destruct (Hrange eq_refl) as [Hs Ht].
        eexists. apply (pack_BHH true); assumption.
      - eexists. reflexivity. }
    destruct Hp as [data Hp]. exists data.
    rewrite (setBoostMode_run _ _ _ _ _ _ _ Hm Hd Hu Hp).
    apply StructFacts.unpack_pack in Hp.
    unfold write_gatt_char.
    destruct (is_connected c); eexists; eexists;
      (split; [reflexivity|]); (split; [reflexivity|]);
      (split; [destruct on; exact Hp|]).
    + intros _. split; [reflexivity|]. cbn [gatt store].
      destruct (Specifier_eq_dec uuid uuid); [reflexivity|contradiction].
    + discriminate.
Qed.

Lemma setBoostMode_payload_witness :
  (exists msg,
     setBoostMode true 510 30 blank_world
     = (Raise (ValueError msg), blank_world)) /\
  (exists data w',
     setBoostMode false 500 30 blank_world = (Ok tt, w') /\
     trace w' = [EvWrite (ByName CHARACTERISTIC_BOOST) data] /\
     Struct.unpack boost_format data = Ok [0; 0; 0]) /\
  (exists data w',
     setBoostMode true 500 30 blank_world = (Ok tt, w') /\
     trace w' = [EvWrite (ByName CHARACTERISTIC_BOOST) data] /\
     Struct.unpack boost_format data = Ok [1; 500; 30]).
Proof.
  split; [|split].
  - apply (proj1 (setBoostMode_payload true 510 30 blank_world)).
    intros (k & Hk). lia.
  - destruct (proj2 (setBoostMode_payload false 500 30 blank_world)
                (ex_intro _ 20 eq_refl)
                (fun H : false = true => ltac:(discriminate H))
                live_client (ByName CHARACTERISTIC_BOOST) eq_refl eq_refl)
      as (data & r & w' & Hrun & Htrace & Hdec & Hlive).
    exists data, w'. destruct (Hlive eq_refl) as [-> _].
    split; [exact Hrun|]. split; [exact Htrace|exact Hdec].
  - destruct (proj2 (setBoostMode_payload true 500 30 blank_world)
                (ex_intro _ 20 eq_refl)
                (fun _ => ltac:(lia))
                live_client (ByName CHARACTERISTIC_BOOST) eq_refl eq_refl)
      as (data & r & w' & Hrun & Htrace & Hdec & Hlive).
    exists data, w'. destruct (Hlive eq_refl) as [-> _].
    split; [exact Hrun|]. split; [exact Htrace|exact Hdec].
Defined.

(** C6, as stated, fails for a speed that is a multiple of 25 but does not
    fit the unsigned 16-bit field: packing raises a [struct.error], no
    payload is produced and nothing is written. *)
Lemma setBoostMode_counterexample :
  65550 = 25 * 2622 /\
  setBoostMode true 65550 30 blank_world = (Raise StructError, blank_world).
Proof. split; reflexivity. Qed.

(** ** Connecting *)

(** One attempt never raises and consumes exactly one resolution.  It
    leaves the loop exactly when [connect] returned a true value, and then
    [isConnected] is what the link reports; a failed attempt leaves a
    client that was not connected not connected. *)
Lemma connect_attempt_spec (tries retries : Z) (w : World) :
  exists w',
    connect_attempt tries retries w
    = (Ok (attempt_stops (radio w (attempts w))), w') /\
    attempts w' = S (attempts w) /\
    radio w' = radio w /\
    (attempt_stops (radio w (attempts w)) = true ->
     isConnected w' = link_live (radio w (attempts w))) /\
    (attempt_fails (radio w (attempts w)) = true ->
     isConnected w = false -> isConnected w' = false).
Proof.
  unfold connect_attempt, try_except, bind, async_ble_device_from_address,
    with_dev, client_connect, new_BleakClient, raise, ret, _LOGGER,
    attempt_fails.
  cbn.
  destruct (radio w (attempts w)) as [d|];
    cbn [attempt_stops link_live];
    [destruct (on_connect d) as [l|[] l]|];
    cbn [returned_true live_after negb andb];
    destruct (tries =? retries); eexists;
    (split; [reflexivity|]); cbn;
    repeat split; intros; try reflexivity; try assumption;
    try discriminate; destruct l; try reflexivity; discriminate.
Qed.

(** The loop with enough fuel. *)
Lemma connect_loop_spec (fuel : nat) :
  forall (tries retries : Z) (w : World),
    (Z.to_nat (retries - tries) <= fuel)%nat ->
    exists w',
      connect_loop fuel tries retries w = Some (Ok tt, w') /\
      (attempts w' <= attempts w + Z.to_nat (retries - tries))%nat /\
      (forall k,
          (k < Z.to_nat (retries - tries))%nat ->
          attempt_stops (radio w (attempts w + k)%nat) = true ->
          (forall j, (j < k)%nat ->
                     attempt_stops (radio w (attempts w + j)%nat) = false) ->
          attempts w' = (attempts w + S k)%nat /\
          isConnected w' = link_live (radio w (attempts w + k)%nat)) /\
      ((forall j, (j < Z.to_nat (retries - tries))%nat ->
                  attempt_stops (radio w (attempts w + j)%nat) = false) ->
       attempts w' = (attempts w + Z.to_nat (retries - tries))%nat) /\
      (isConnected w = false ->
       (forall j, (j < Z.to_nat (retries - tries))%nat ->
                  attempt_fails (radio w (attempts w + j)%nat) = true) ->
       isConnected w' = false).
Proof.
  induction fuel as [|fuel IH]; intros tries retries w Hfuel;
    cbn [connect_loop]; destruct (Z.ltb_spec tries retries) as [Hlt|Hge].
  - lia.
  - exists w. replace (Z.to_nat (retries - tries)) with 0%nat by lia.
    split; [reflexivity|]. split; [lia|]. split; [intros k Hk; lia|].
    split; [intros _; lia|]. intros Hnc _. exact Hnc.
  - destruct (connect_attempt_spec (tries + 1) retries w)
      as (w1 & Hrun & Hatt & Hradio & Hyes & Hno).
    rewrite Hrun.
    assert (Hn : Z.to_nat (retries - tries)
                 = S (Z.to_nat (retries - (tries + 1)))) by lia.
    destruct (attempt_stops (radio w (attempts w))) eqn:Es.
    + exists w1. split; [reflexivity|]. split; [lia|]. split; [|split].
      * intros k Hk Hs Hbefore. destruct k as [|k].
        -- rewrite Nat.add_0_r. split; [lia|]. now apply Hyes.
        -- specialize (Hbefore 0%nat ltac:(lia)).
           rewrite Nat.add_0_r in Hbefore. congruence.
      * intros Hnone. specialize (Hnone 0%nat ltac:(lia)).
        rewrite Nat.add_0_r in Hnone. congruence.
      * intros Hnc Hfail. specialize (Hfail 0%nat ltac:(lia)).
        rewrite Nat.add_0_r in Hfail. unfold attempt_fails in Hfail.
        rewrite Es in Hfail. discriminate.
    + destruct (IH (tries + 1) retries w1 ltac:(lia))
        as (w' & Hloop & Hle & Hfirst & Hnone & Hfails).
      rewrite Hradio, Hatt in *.
      exists w'. split; [exact Hloop|]. split; [lia|]. split; [|split].
      * intros k Hk Hs Hbefore. destruct k as [|k].
        -- rewrite Nat.add_0_r in Hs. congruence.
        -- rewrite Nat.add_succ_r in Hs.
           destruct (Hfirst k ltac:(lia) Hs) as [Ha Hc].
           { intros j Hj. specialize (Hbefore (S j) ltac:(lia)).
             now rewrite Nat.add_succ_r in Hbefore. }
           split; [lia|]. now rewrite Nat.add_succ_r.
      * intros Hall. rewrite Hnone; [lia|].
        intros j Hj. specialize (Hall (S j) ltac:(lia)).
        now rewrite Nat.add_succ_r in Hall.
      * intros Hnc Hfail. apply Hfails.
        -- apply Hno; [|exact Hnc].
           specialize (Hfail 0%nat ltac:(lia)).
           now rewrite Nat.add_0_r in Hfail.
        -- intros j Hj. specialize (Hfail (S j) ltac:(lia)).
           now rewrite Nat.add_succ_r in Hfail.
  - exists w. replace (Z.to_nat (retries - tries)) with 0%nat by lia.
    split; [reflexivity|]. split; [lia|]. split; [intros k Hk; lia|].
    split; [intros _; lia|]. intros Hnc _. exact Hnc.
Qed.

Lemma attempt_fails_does_not_stop (found : option BLEDevice) :
  attempt_fails found = true -> attempt_stops found = false.
Proof.
  unfold attempt_fails. destruct (attempt_stops found); [discriminate|].
  reflexivity.
Qed.

(** C7 (amended): [connect(retries)] always returns a boolean and never
    raises.  On a connected client it returns true at once and nothing
    changes (no address is resolved, no connection attempted).  Otherwise
    it makes at most [retries] attempts, an unresolved address being one of
    them; it stops at the first attempt whose [connect()] returns a true
    value, after exactly that many attempts, and returns what the link then
    reports; when no attempt returns a true value it makes exactly
    [retries] attempts.  Hence, where an attempt succeeds by returning true
    on a live link and fails by not resolving, raising or returning false
    without a link: if attempt [k + 1] is the first to succeed, [connect]
    returns true after exactly [k + 1] attempts, and if all [retries]
    attempts fail it returns false after exactly [retries] attempts. *)
Theorem connect_retries (retries : Z) (w : World) :
  exists b w',
    connect retries w = Some (Ok b, w') /\
    (isConnected w = true -> b = true /\ w' = w) /\
    (isConnected w = false ->
     b = isConnected w' /\
     (attempts w' <= attempts w + Z.to_nat retries)%nat /\
     (forall k,
         (k < Z.to_nat retries)%nat ->
         attempt_stops (radio w (attempts w + k)%nat) = true ->
         (forall j, (j < k)%nat ->
                    attempt_stops (radio w (attempts w + j)%nat) = false) ->
         b = link_live (radio w (attempts w + k)%nat) /\
         attempts w' = (attempts w + S k)%nat) /\
     ((forall j, (j < Z.to_nat retries)%nat ->
                 attempt_stops (radio w (attempts w + j)%nat) = false) ->
      attempts w' = (attempts w + Z.to_nat retries)%nat) /\
     (forall k,
         (k < Z.to_nat retries)%nat ->
         attempt_succeeds (radio w (attempts w + k)%nat) = true ->
         (forall j, (j < k)%nat ->
                    attempt_fails (radio w (attempts w + j)%nat) = true) ->
         b = true /\ attempts w' = (attempts w + S k)%nat) /\
     ((forall j, (j < Z.to_nat retries)%nat ->
                 attempt_fails (radio w (attempts w + j)%nat) = true) ->
      b = false /\ attempts w' = (attempts w + Z.to_nat retries)%nat)).
Proof.
  unfold connect. destruct (isConnected w) eqn:Hc.
  - exists true, w. split; [reflexivity|]. split; [auto|discriminate].
  - destruct (connect_loop_spec (Z.to_nat retries) 0 retries
                (add_log (DEBUG, "Connecting to %s") w))
      as (w' & Hloop & Hle & Hfirst & Hnone & Hfails).
    { lia. }
    rewrite Hloop. rewrite Z.sub_0_r in *. cbn [attempts radio add_log] in *.
    exists (isConnected w'), w'. split; [reflexivity|].
    split; [discriminate|]. intros _.
    split; [reflexivity|]. split; [exact Hle|].
    split; [|split; [|split]].
    + intros k Hk Hs Hbefore.
      destruct (Hfirst k Hk Hs Hbefore) as [Ha Hl]. split; assumption.
    + exact Hnone.
    + intros k Hk Hs Hbefore.
      unfold attempt_succeeds in Hs. apply andb_prop in Hs.
      destruct Hs as [Hstop Hlive].
      destruct (Hfirst k Hk Hstop) as [Ha Hl].
      { intros j Hj. apply attempt_fails_does_not_stop. now apply Hbefore. }
      split; [congruence|exact Ha].
    + intros Hfail. split.
      * apply Hfails; [exact Hc|exact Hfail].
      * apply Hnone. intros j Hj.
        apply attempt_fails_does_not_stop. now apply Hfail.
Qed.

Lemma radio_of_fails_past (l : list (option BLEDevice)) (j : nat) :
  (List.length l <= j)%nat -> attempt_fails (radio_of l j) = true.
Proof.
  intros Hj. unfold radio_of. now rewrite nth_overflow.
Qed.

(** Two failures and then a success, with [retries = 3]: true after exactly
    three attempts.  A device that is never found: false after exactly
    three attempts, and no exception. *)
Lemma connect_retries_witness :
  (exists w', connect 3 third_time_lucky = Some (Ok true, w') /\
              attempts w' = 3%nat) /\
  (exists w', connect 3 out_of_range = Some (Ok false, w') /\
              attempts w' = 3%nat).
Proof.
  split.
  - destruct (connect_retries 3 third_time_lucky)
      as (b & w' & Hrun & _ & Hidle).
    destruct (Hidle eq_refl) as (_ & _ & _ & _ & Hfirst & _).
    destruct (Hfirst 2%nat ltac:(cbn; lia) eq_refl) as [-> Hatt].
    { intros j Hj.
      destruct j as [|[|j]]; [reflexivity|reflexivity|lia]. }
    exists w'. split; [exact Hrun|exact Hatt].
  - destruct (connect_retries 3 out_of_range)
      as (b & w' & Hrun & _ & Hidle).
    destruct (Hidle eq_refl) as (_ & _ & _ & _ & _ & Hnone).
    destruct Hnone as [-> Hatt].
    { intros j _. apply radio_of_fails_past. cbn. lia. }
    exists w'. split; [exact Hrun|exact Hatt].
Defined.

(** C7, as stated, fails on a transport whose [connect()] establishes the
    link and returns nothing that counts as true: the first attempt has
    connected, yet [connect(3)] goes on to make all three attempts; and no
    attempt made the loop stop, yet the result is true. *)
Lemma connect_counterexample :
  link_live (radio quiet_world 0) = true /\
  attempt_stops (radio quiet_world 0) = false /\
  attempt_stops (radio quiet_world 1) = false /\
  attempt_stops (radio quiet_world 2) = false /\
  exists w', connect 3 quiet_world = Some (Ok true, w') /\
             attempts w' = 3%nat.
Proof.
  repeat split. eexists. split; reflexivity.
Qed.

(** ** Disconnecting *)

(** C8: [disconnect()] never raises.  With a handle it asks the transport
    to disconnect, and when that raises the exception is caught and logged;
    in every case the handle is [None] afterwards, so [isConnected()] is
    false.  Without a handle nothing happens. *)
Theorem disconnect_clears_handle (w : World) :
  exists w',
    disconnect w = (Ok tt, w') /\
    _dev w' = None /\
    isConnected w' = false /\
    (forall c, _dev w = Some c ->
               trace w' = EvDisconnect :: trace w /\
               log w' =
                 (if disconnect_raises w
                  then (INFO, "Error disconnecting from %s! %s") :: log w
                  else log w)) /\
    (_dev w = None -> w' = w).
Proof.
  unfold disconnect. destruct (_dev w) as [c|] eqn:Hd.
  - unfold bind, try_except, with_dev, client_disconnect, _LOGGER.
    rewrite Hd. cbn [disconnect_raises add_event].
    destruct (disconnect_raises w) eqn:Hr; eexists;
      (split; [reflexivity|]); cbn;
      (split; [reflexivity|]); (split; [reflexivity|]);
      (split; [intros c' _; split; reflexivity|discriminate]).
  - exists w. unfold isConnected. rewrite Hd.
    split; [reflexivity|]. split; [reflexivity|]. split; [reflexivity|].
    split; [intros c Hc; discriminate|reflexivity].
Qed.

Lemma disconnect_clears_handle_witness :
  exists w',
    disconnect failing_disconnect_world = (Ok tt, w') /\
    _dev w' = None /\ isConnected w' = false /\
    trace w' = [EvDisconnect] /\
    log w' = [(INFO, "Error disconnecting from %s! %s")].
Proof.
  destruct (disconnect_clears_handle failing_disconnect_world)
    as (w' & Hrun & Hdev & Hconn & Hsome & _).
  destruct (Hsome live_client eq_refl) as [Htrace Hlog].
  exists w'. repeat split; assumption.
Defined.

(** ** Authorization *)

Lemma unpack_b (x : byte) :
  Struct.unpack [Struct.fb] [x]
  = Ok [if Z_of_byte x <? 128 then Z_of_byte x else Z_of_byte x - 256].
Proof.
  unfold Struct.unpack. cbn. rewrite !Z.add_0_r. reflexivity.
Qed.

(** C9: in the code [authorize] does not reach the write.  [setAuth] looks
    the PIN characteristic up on [self.chars], an attribute that a [BleFan]
    does not have (the registry is [self.device.chars]), so for every PIN
    and every state of the client the call raises an [AttributeError] and
    nothing is written.  [checkAuth] does what the claim says: it reads the
    one-byte confirmation and returns true exactly when that byte is not
    zero. *)
Theorem authorize_raises_AttributeError (w : World) :
  authorize w
  = (Raise (AttributeError "'BleFan' object has no attribute 'chars'"), w) /\
  (forall c uuid x,
      _dev w = Some c -> is_connected c = true ->
      device_chars w CHARACTERISTIC_PIN_CONFIRMATION = Some uuid ->
      gatt w uuid = Some [x] ->
      checkAuth w
      = (Ok (negb (Z_of_byte x =? 0)), add_event (EvRead uuid) w)).
Proof.
  split; [reflexivity|].
  intros c uuid x Hd Hc Hu Hg. unfold checkAuth.
  unfold bind at 1. unfold chars_getitem. rewrite Hu.
  unfold bind at 1. rewrite (read_registered _ _ _ _ Hd Hc Hg).
  unfold bind at 1, lift at 1. rewrite unpack_b.
  unfold bind, lift, ret. cbn [getitem nth_error].
  pose proof (Z_of_byte_range x) as Hx.
  do 2 f_equal. f_equal.
  destruct (Z.ltb_spec (Z_of_byte x) 128) as [Hlt|Hge]; [reflexivity|].
  destruct (Z.eqb_spec (Z_of_byte x - 256) 0) as [H0|H0];
    destruct (Z.eqb_spec (Z_of_byte x) 0) as [H1|H1]; try reflexivity; lia.
Qed.

Lemma authorize_raises_AttributeError_witness :
  authorize example_alias_world
  = (Raise (AttributeError "'BleFan' object has no attribute 'chars'"),
     example_alias_world) /\
  fst (checkAuth example_alias_world) = Ok true.
Proof.
  destruct (authorize_raises_AttributeError example_alias_world)
    as [Hauth Hcheck].
  split; [exact Hauth|].
  rewrite (Hcheck live_client (ByName CHARACTERISTIC_PIN_CONFIRMATION) x01
             eq_refl eq_refl eq_refl eq_refl).
  reflexivity.
Defined.

(** ** Alias *)

(** C10: [setAlias] does what the claim says: the UTF-8 bytes of the name,
    truncated or padded with null bytes to exactly 20 bytes, are what the
    transport is asked to write to the description characteristic.
    [getAlias] does not: [decode] is looked up on the coroutine before it
    is awaited, so the call raises (an [AttributeError] whenever the
    characteristic is registered), reads nothing and returns no text. *)
Theorem setAlias_pads_getAlias_raises (w : World) :
  (forall name enc c uuid,
      Utf8.encode name = Ok enc ->
      _dev w = Some c ->
      device_chars w CHARACTERISTIC_FAN_DESCRIPTION = Some uuid ->
      exists data,
        setAlias name w = write_gatt_char c uuid data w /\
        List.length data = 20%nat /\
        data = firstn 20 (enc ++ repeat x00 20)) /\
  (exists e,
      getAlias w = (Raise e, w) /\
      (forall uuid,
          device_chars w CHARACTERISTIC_FAN_DESCRIPTION = Some uuid ->
          e = AttributeError "'coroutine' object has no attribute 'decode'")).
Proof.
  split.
  - intros name enc c uuid He Hd Hu.
    exists (Struct.pack_s 20 enc). split; [|split].
    + unfold setAlias. unfold bind at 1. unfold chars_getitem. rewrite Hu.
      unfold bind at 1, lift at 1. rewrite He.
      unfold _writeUUID, with_dev. now rewrite Hd.
    + apply StructFacts.pack_s_length.
    + reflexivity.
  - unfold getAlias, bind at 1, chars_getitem.
    destruct (device_chars w CHARACTERISTIC_FAN_DESCRIPTION) as [uuid|].
    + eexists. split; [reflexivity|]. intros _ _. reflexivity.
    + eexists. split; [reflexivity|]. intros uuid Hu. discriminate.
Qed.

Lemma setAlias_pads_getAlias_raises_witness :
  (exists data,
      setAlias [70; 97; 110] example_alias_world
      = write_gatt_char live_client (ByName CHARACTERISTIC_FAN_DESCRIPTION)
          data example_alias_world /\
      data = [x46; x61; x6e; x00; x00; x00; x00; x00; x00; x00;
              x00; x00; x00; x00; x00; x00; x00; x00; x00; x00]) /\
  getAlias example_alias_world
  = (Raise (AttributeError "'coroutine' object has no attribute 'decode'"),
     example_alias_world).
Proof.
  destruct (setAlias_pads_getAlias_raises example_alias_world)
    as [Hset (e & Hget & He)].
  split.
  - destruct (Hset [70; 97; 110] [x46; x61; x6e] live_client
                (ByName CHARACTERISTIC_FAN_DESCRIPTION)
                eq_refl eq_refl eq_refl) as (data & Hrun & _ & Hdata).
    exists data. split; [exact Hrun|exact Hdata].
  - rewrite Hget.
    now rewrite (He (ByName CHARACTERISTIC_FAN_DESCRIPTION) eq_refl).
Defined.

(** * Further properties of the client *)

(** ** Writing and reading back *)

Lemma write_live (w : World) (c : BleakClient) (uuid : Specifier)
  (data : list byte) :
  _dev w = Some c -> is_connected c = true ->
  _writeUUID uuid data w
  = (Ok tt, store uuid data (add_event (EvWrite uuid data) w)).
Proof.
  intros Hd Hc. unfold _writeUUID, with_dev, write_gatt_char.
  now rewrite Hd, Hc.
Qed.

Lemma gatt_store_same (w : World) (uuid : Specifier) (data : list byte) :
  gatt (store uuid data w) uuid = Some data.
Proof.
  cbn [gatt store].
  destruct (Specifier_eq_dec uuid uuid); [reflexivity|contradiction].
Qed.

(** A pack written through the registry on a live handle, and the
    matching unpack read through the registry afterwards. *)
Lemma registry_write_then_read {A : Type} (name : CharName)
  (fmt : list Struct.Code) (vals : list Z) (data : list byte)
  (make : list Z -> Result A) (w : World) (c : BleakClient)
  (uuid : Specifier) :
  _dev w = Some c -> is_connected c = true ->
  device_chars w name = Some uuid ->
  Struct.pack fmt vals = Ok data ->
  let w1 := store uuid data (add_event (EvWrite uuid data) w) in
  (uuid <- chars_getitem name ;;
   d <- lift (Struct.pack fmt vals) ;;
   _writeUUID uuid d) w = (Ok tt, w1) /\
  (uuid <- chars_getitem name ;;
   d <- _readUUID uuid ;;
   v <- lift (Struct.unpack fmt d) ;;
   lift (make v)) w1 = (make vals, add_event (EvRead uuid) w1).
Proof.
  intros Hd Hc Hu Hp w1. split.
  - unfold bind at 1. unfold chars_getitem. rewrite Hu.
    unfold bind at 1, lift at 1. rewrite Hp.
    now apply (write_live w c).
  - unfold bind at 1. unfold chars_getitem.
    replace (device_chars w1 name) with (Some uuid) by (symmetry; exact Hu).
    unfold bind at 1.
    rewrite (read_registered w1 c uuid data Hd Hc (gatt_store_same _ _ _)).
    unfold bind at 1, lift at 1.
    rewrite (StructFacts.unpack_pack _ _ _ Hp). reflexivity.
Qed.

(** The same for a characteristic addressed by its constant. *)
Lemma direct_write_then_read {A : Type} (s : Specifier)
  (fmt : list Struct.Code) (vals : list Z) (data : list byte)
  (make : list Z -> Result A) (w : World) (c : BleakClient) :
  _dev w = Some c -> is_connected c = true ->
  Struct.pack fmt vals = Ok data ->
  let w1 := store s data (add_event (EvWrite s data) w) in
  (d <- lift (Struct.pack fmt vals) ;; _writeUUID s d) w = (Ok tt, w1) /\
  (d <- _readUUID s ;;
   v <- lift (Struct.unpack fmt d) ;;
   lift (make v)) w1 = (make vals, add_event (EvRead s) w1).
Proof.
  intros Hd Hc Hp w1. split.
  - unfold bind at 1, lift at 1. rewrite Hp. now apply (write_live w c).
  - unfold bind at 1.
    rewrite (read_registered w1 c s data Hd Hc (gatt_store_same _ _ _)).
    unfold bind at 1, lift at 1.
    rewrite (StructFacts.unpack_pack _ _ _ Hp). reflexivity.
Qed.

(** ** Packing bytes *)

Lemma pack_one_B (v : Z) :
  is_byte v -> Struct.pack_one Struct.fB v = Ok [byte_of_Z v].
Proof.
  intros Hv. unfold is_byte in Hv. unfold Struct.pack_one.
  cbn [Struct.in_range].
  replace (0 <=? v) with true by (symmetry; apply Z.leb_le; lia).
  replace (v <=? 255) with true by (symmetry; apply Z.leb_le; lia).
  cbn [andb Struct.size Struct.le_bytes].
  now rewrite Z.mod_small by lia.
Qed.

Lemma pack_one_B_rejects (v : Z) :
  ~ is_byte v -> Struct.pack_one Struct.fB v = Raise StructError.
Proof.
  intros Hv. unfold is_byte in Hv. unfold Struct.pack_one.
  cbn [Struct.in_range].
  destruct (Z.leb_spec 0 v), (Z.leb_spec v 255); cbn [andb];
    try reflexivity; lia.
Qed.

Lemma pack_bytes (vals : list Z) :
  Forall is_byte vals ->
  Struct.pack (repeat Struct.fB (List.length vals)) vals
  = Ok (map byte_of_Z vals).
Proof.
  induction 1 as [|v vals Hv _ IH]; [reflexivity|].
  cbn [List.length repeat Struct.pack map].
  rewrite (pack_one_B v Hv), IH. reflexivity.
Qed.

Lemma pack_bytes_rejects (vals : list Z) :
  ~ Forall is_byte vals ->
  Struct.pack (repeat Struct.fB (List.length vals)) vals = Raise StructError.
Proof.
  induction vals as [|v vals IH]; intros Hn.
  - exfalso. apply Hn. constructor.
  - cbn [List.length repeat Struct.pack].
    destruct (Z.leb_spec 0 v) as [Hlo|Hlo];
      [destruct (Z.leb_spec v 255) as [Hhi|Hhi]|].
    + rewrite (pack_one_B v) by (unfold is_byte; lia). cbn [rbind].
      rewrite IH; [reflexivity|].
      intros Hall. apply Hn. constructor; [unfold is_byte; lia|exact Hall].
    + now rewrite pack_one_B_rejects by (unfold is_byte; lia).
    + now rewrite pack_one_B_rejects by (unfold is_byte; lia).
Qed.

(** ** Clock *)

(** X1: [setTime] checks nothing but what the byte fields can hold.  With
    the clock characteristic registered, four values in 0..255 (a day 9 or
    an hour 200 included) are written as four bytes, and [getTime] on the
    connected client then returns exactly these four values; if one value
    is outside 0..255 the call raises [struct.error] and nothing has
    happened. *)
Theorem setTime_getTime (dayofweek hour minute second : Z) (w : World)
  (uuid : Specifier) :
  device_chars w CHARACTERISTIC_CLOCK = Some uuid ->
  (~ Forall is_byte [dayofweek; hour; minute; second] ->
   setTime dayofweek hour minute second w = (Raise StructError, w)) /\
  (Forall is_byte [dayofweek; hour; minute; second] ->
   forall c, _dev w = Some c -> is_connected c = true ->
   exists w1 w2,
     setTime dayofweek hour minute second w = (Ok tt, w1) /\
     trace w1
     = EvWrite uuid (map byte_of_Z [dayofweek; hour; minute; second])
         :: trace w /\
     getTime w1
     = (Ok {| DayOfWeek := dayofweek; Hour := hour; Minute := minute;
              Second := second |}, w2)).
Proof.
  intros Hu. split.
  - intros Hn. apply pack_bytes_rejects in Hn.
    unfold setTime, bind at 1, chars_getitem. rewrite Hu.
    unfold bind at 1, lift at 1.
    change (repeat Struct.fB (List.length [dayofweek; hour; minute; second]))
      with [Struct.fB; Struct.fB; Struct.fB; Struct.fB] in Hn.
    now rewrite Hn.
  - intros Hall c Hd Hc. apply pack_bytes in Hall.
    destruct (registry_write_then_read CHARACTERISTIC_CLOCK _ _ _ Time_make
                w c uuid Hd Hc Hu Hall) as [Hset Hget].
    eexists; eexists. split; [exact Hset|]. split; [reflexivity|exact Hget].
Qed.

Lemma setTime_getTime_witness :
  setTime 1 24 0 256 blank_world = (Raise StructError, blank_world) /\
  exists w1 w2,
    setTime 9 200 61 61 blank_world = (Ok tt, w1) /\
    getTime w1
    = (Ok {| DayOfWeek := 9; Hour := 200; Minute := 61; Second := 61 |}, w2).
Proof.
  split.
  - apply (proj1 (setTime_getTime 1 24 0 256 blank_world
                    (ByName CHARACTERISTIC_CLOCK) eq_refl)).
    intros Hall. inversion Hall as [|? ? _ H1]; subst.
    inversion H1 as [|? ? _ H2]; subst. inversion H2 as [|? ? _ H3]; subst.
    inversion H3 as [|? ? Hb _]; subst. unfold is_byte in Hb. lia.
  - destruct (proj2 (setTime_getTime 9 200 61 61 blank_world
                       (ByName CHARACTERISTIC_CLOCK) eq_refl)
                ltac:(repeat constructor; unfold is_byte; lia)
                live_client eq_refl eq_refl)
      as (w1 & w2 & Hset & _ & Hget).
    exists w1, w2. split; [exact Hset|exact Hget].
Defined.

(** X2: whatever the clock reads, [setTimeToNow] cannot fail in packing:
    on a connected client with the clock characteristic registered it
    writes the four bytes (ISO weekday, hour, minute, second). *)
Theorem setTimeToNow_writes (now : datetime) (w : World) (c : BleakClient)
  (uuid : Specifier) :
  valid_datetime now ->
  _dev w = Some c -> is_connected c = true ->
  device_chars w CHARACTERISTIC_CLOCK = Some uuid ->
  exists w1,
    setTimeToNow now w = (Ok tt, w1) /\
    trace w1
    = EvWrite uuid
        [byte_of_Z (dt_isoweekday now); byte_of_Z (dt_hour now);
         byte_of_Z (dt_minute now); byte_of_Z (dt_second now)]
        :: trace w /\
    gatt w1 uuid
    = Some [byte_of_Z (dt_isoweekday now); byte_of_Z (dt_hour now);
            byte_of_Z (dt_minute now); byte_of_Z (dt_second now)].
Proof.
  intros (Hw & Hh & Hm & Hs) Hd Hc Hu.
  assert (Hall : Forall is_byte [dt_isoweekday now; dt_hour now;
                                 dt_minute now; dt_second now])
    by (repeat constructor; unfold is_byte; lia).
  apply pack_bytes in Hall.
  destruct (registry_write_then_read CHARACTERISTIC_CLOCK _ _ _ Time_make
              w c uuid Hd Hc Hu Hall) as [Hset _].
  eexists. split; [exact Hset|]. split; [reflexivity|].
  apply gatt_store_same.
Qed.

Lemma setTimeToNow_writes_witness :
  exists w1,
    setTimeToNow {| dt_isoweekday := 7; dt_hour := 23; dt_minute := 59;
                    dt_second := 59 |} blank_world = (Ok tt, w1) /\
    trace w1 = [EvWrite (ByName CHARACTERISTIC_CLOCK) [x07; x17; x3b; x3b]].
Proof.
  destruct (setTimeToNow_writes
              {| dt_isoweekday := 7; dt_hour := 23; dt_minute := 59;
                 dt_second := 59 |} blank_world live_client
              (ByName CHARACTERISTIC_CLOCK)
              ltac:(unfold valid_datetime; cbn; lia)
              eq_refl eq_refl eq_refl) as (w1 & Hset & Htrace & _).
  exists w1. split; [exact Hset|exact Htrace].
Defined.

(** ** Trickle days *)

(** X3: [setTrickleDays] followed by [getTrickleDays] on a connected client
    returns the two masks unchanged, for all masks in 0..255; a mask
    outside 0..255 raises [struct.error] and nothing has happened. *)
Theorem setTrickleDays_getTrickleDays (weekdays weekends : Z) (w : World)
  (uuid : Specifier) :
  device_chars w CHARACTERISTIC_BASIC_VENTILATION = Some uuid ->
  (~ (is_byte weekdays /\ is_byte weekends) ->
   setTrickleDays weekdays weekends w = (Raise StructError, w)) /\
  (is_byte weekdays /\ is_byte weekends ->
   forall c, _dev w = Some c -> is_connected c = true ->
   exists w1 w2,
     setTrickleDays weekdays weekends w = (Ok tt, w1) /\
     trace w1
     = EvWrite uuid [byte_of_Z weekdays; byte_of_Z weekends] :: trace w /\
     getTrickleDays w1
     = (Ok {| Weekdays := weekdays; Weekends := weekends |}, w2)).
Proof.
  intros Hu. split.
  - intros Hn.
    assert (Hn' : ~ Forall is_byte [weekdays; weekends]).
    { intros Hall. apply Hn.
      inversion Hall as [|? ? H1 Hall1]; subst.
      inversion Hall1 as [|? ? H2 _]; subst. auto. }
    apply pack_bytes_rejects in Hn'.
    unfold setTrickleDays, bind at 1, chars_getitem. rewrite Hu.
    unfold bind at 1, lift at 1.
    change (repeat Struct.fB (List.length [weekdays; weekends]))
      with [Struct.fB; Struct.fB] in Hn'.
    now rewrite Hn'.
  - intros [H1 H2] c Hd Hc.
    assert (Hall : Forall is_byte [weekdays; weekends])
      by (repeat first [assumption | constructor]).
    apply pack_bytes in Hall.
    destruct (registry_write_then_read CHARACTERISTIC_BASIC_VENTILATION
                _ _ _ TrickleDays_make w c uuid Hd Hc Hu Hall)
      as [Hset Hget].
    eexists; eexists. split; [exact Hset|]. split; [reflexivity|exact Hget].
Qed.

Lemma setTrickleDays_getTrickleDays_witness :
  setTrickleDays 31 300 blank_world = (Raise StructError, blank_world) /\
  exists w1 w2,
    setTrickleDays 31 3 blank_world = (Ok tt, w1) /\
    getTrickleDays w1 = (Ok {| Weekdays := 31; Weekends := 3 |}, w2).
Proof.
  split.
  - apply (proj1 (setTrickleDays_getTrickleDays 31 300 blank_world
                    (ByName CHARACTERISTIC_BASIC_VENTILATION) eq_refl)).
    unfold is_byte. lia.
  - destruct (proj2 (setTrickleDays_getTrickleDays 31 3 blank_world
                       (ByName CHARACTERISTIC_BASIC_VENTILATION) eq_refl)
                ltac:(unfold is_byte; lia)
                live_client eq_refl eq_refl)
      as (w1 & w2 & Hset & _ & Hget).
    exists w1, w2. split; [exact Hset|exact Hget].
Defined.

(** ** Silent hours *)

(** X4: for every flag and every pair of times of day, [setSilentHours]
    on a connected client writes five bytes (flag, start hour and minute,
    end hour and minute) after logging one debug record, and
    [getSilentHours] then returns the flag as 0 or 1 and the four time
    fields unchanged. *)
Theorem setSilentHours_getSilentHours (on : bool)
  (startingTime endingTime : time_of_day) (w : World) (c : BleakClient)
  (uuid : Specifier) :
  valid_time startingTime -> valid_time endingTime ->
  _dev w = Some c -> is_connected c = true ->
  device_chars w CHARACTERISTIC_NIGHT_MODE = Some uuid ->
  exists w1 w2,
    setSilentHours on startingTime endingTime w = (Ok tt, w1) /\
    trace w1
    = EvWrite uuid
        [byte_of_Z (Z.b2z on);
         byte_of_Z (t_hour startingTime); byte_of_Z (t_minute startingTime);
         byte_of_Z (t_hour endingTime); byte_of_Z (t_minute endingTime)]
        :: trace w /\
    log w1 = (DEBUG, "Writing silent hours %s %s %s %s") :: log w /\
    getSilentHours w1
    = (Ok {| On := Z.b2z on;
             StartingHour := t_hour startingTime;
             StartingMinute := t_minute startingTime;
             EndingHour := t_hour endingTime;
             EndingMinute := t_minute endingTime |}, w2).
Proof.
  intros [Hsh Hsm] [Heh Hem] Hd Hc Hu.
  assert (Hall : Forall is_byte
                   [Z.b2z on; t_hour startingTime; t_minute startingTime;
                    t_hour endingTime; t_minute endingTime])
    by (repeat constructor; unfold is_byte; destruct on; cbn; lia).
  apply pack_bytes in Hall.
  set (w0 := add_log (DEBUG, "Writing silent hours %s %s %s %s") w).
  destruct (registry_write_then_read CHARACTERISTIC_NIGHT_MODE _ _ _
              SilentHours_make w0 c uuid Hd Hc Hu Hall) as [Hset Hget].
  eexists; eexists. split; [|split; [|split]]; [| | |exact Hget].
  - unfold setSilentHours. unfold bind at 1, _LOGGER at 1. fold w0.
    unfold bind at 1, lift at 1.
    change (repeat Struct.fB _)
      with [Struct.fB; Struct.fB; Struct.fB; Struct.fB; Struct.fB] in Hall.
    rewrite Hall.
    unfold bind at 1, chars_getitem.
    replace (device_chars w0 CHARACTERISTIC_NIGHT_MODE) with (Some uuid)
      by (symmetry; exact Hu).
    now apply (write_live w0 c).
  - reflexivity.
  - reflexivity.
Qed.

Lemma setSilentHours_getSilentHours_witness :
  exists w1 w2,
    setSilentHours true {| t_hour := 22; t_minute := 30 |}
      {| t_hour := 6; t_minute := 0 |} blank_world = (Ok tt, w1) /\
    getSilentHours w1
    = (Ok {| On := 1; StartingHour := 22; StartingMinute := 30;
             EndingHour := 6; EndingMinute := 0 |}, w2).
Proof.
  destruct (setSilentHours_getSilentHours true
              {| t_hour := 22; t_minute := 30 |}
              {| t_hour := 6; t_minute := 0 |} blank_world live_client
              (ByName CHARACTERISTIC_NIGHT_MODE)
              ltac:(unfold valid_time; cbn; lia)
              ltac:(unfold valid_time; cbn; lia)
              eq_refl eq_refl eq_refl)
    as (w1 & w2 & Hset & _ & _ & Hget).
  exists w1, w2. split; [exact Hset|exact Hget].
Defined.

(** ** Automatic cycles *)

(** X5: [setAutomaticCycles] rejects a setting outside 0..3 with a
    [ValueError] before anything happens; a setting in 0..3 is written as
    one byte, and [getAutomaticCycles] on the connected client then returns
    it. *)
Theorem setAutomaticCycles_getAutomaticCycles (setting : Z) (w : World) :
  (~ 0 <= setting <= 3 ->
   exists msg, setAutomaticCycles setting w = (Raise (ValueError msg), w)) /\
  (0 <= setting <= 3 ->
   forall c uuid,
     _dev w = Some c -> is_connected c = true ->
     device_chars w CHARACTERISTIC_AUTOMATIC_CYCLES = Some uuid ->
     exists w1 w2,
       setAutomaticCycles setting w = (Ok tt, w1) /\
       trace w1 = EvWrite uuid [byte_of_Z setting] :: trace w /\
       getAutomaticCycles w1 = (Ok setting, w2)).
Proof.
  unfold setAutomaticCycles. split.
  - intros Hn.
    destruct (Z.ltb_spec setting 0) as [Hlo|Hlo]; cbn [orb];
      [eexists; reflexivity|].
    destruct (Z.gtb_spec setting 3) as [Hhi|Hhi];
      [eexists; reflexivity|lia].
  - intros Hr c uuid Hd Hc Hu.
    replace (setting <? 0) with false by (symmetry; apply Z.ltb_ge; lia).
    replace (setting >? 3) with false
      by (rewrite Z.gtb_ltb; symmetry; apply Z.ltb_ge; lia).
    cbn [orb]. unfold bind at 1, ret at 1.
    assert (Hall : Forall is_byte [setting])
      by (repeat constructor; unfold is_byte; lia).
    apply pack_bytes in Hall.
    destruct (registry_write_then_read CHARACTERISTIC_AUTOMATIC_CYCLES
                _ _ _ (fun v => getitem v 0) w c uuid Hd Hc Hu Hall)
      as [Hset Hget].
    eexists; eexists. split; [exact Hset|]. split; [reflexivity|exact Hget].
Qed.

Lemma setAutomaticCycles_getAutomaticCycles_witness :
  (exists msg,
      setAutomaticCycles 4 blank_world
      = (Raise (ValueError msg), blank_world)) /\
  exists w1 w2,
    setAutomaticCycles 3 blank_world = (Ok tt, w1) /\
    getAutomaticCycles w1 = (Ok 3, w2).
Proof.
  split.
  - apply (proj1 (setAutomaticCycles_getAutomaticCycles 4 blank_world)).
    lia.
  - destruct (proj2 (setAutomaticCycles_getAutomaticCycles 3 blank_world)
                ltac:(lia) live_client
                (ByName CHARACTERISTIC_AUTOMATIC_CYCLES)
                eq_refl eq_refl eq_refl)
      as (w1 & w2 & Hset & _ & Hget).
    exists w1, w2. split; [exact Hset|exact Hget].
Defined.

(** ** Light sensor settings *)

Lemma py_in_In (x : Z) (t : list Z) : py_in x t = true <-> In x t.
Proof.
  unfold py_in. rewrite existsb_exists. split.
  - intros (y & Hy & He). apply Z.eqb_eq in He. now subst.
  - intros Hx. exists x. split; [exact Hx|apply Z.eqb_refl].
Qed.

(** X6: [setLightSensorSettings] accepts exactly a delay in {0, 5, 10}
    with a running time in {5, 10, 15, 30, 60}.  Anything else raises a
    [ValueError] and nothing has happened; an accepted pair is written as
    two bytes, on a connected client whatever the registry of the model
    holds, and [getLightSensorSettings] then returns the pair. *)
Theorem setLightSensorSettings_getLightSensorSettings (delayed running : Z)
  (w : World) :
  (~ (In delayed [0; 5; 10] /\ In running [5; 10; 15; 30; 60]) ->
   exists msg,
     setLightSensorSettings delayed running w
     = (Raise (ValueError msg), w)) /\
  (In delayed [0; 5; 10] /\ In running [5; 10; 15; 30; 60] ->
   forall c, _dev w = Some c -> is_connected c = true ->
   exists w1 w2,
     setLightSensorSettings delayed running w = (Ok tt, w1) /\
     trace w1
     = EvWrite (ByName CHARACTERISTIC_TIME_FUNCTIONS)
         [byte_of_Z delayed; byte_of_Z running] :: trace w /\
     getLightSensorSettings w1
     = (Ok {| DelayedStart := delayed; RunningTime := running |}, w2)).
Proof.
  unfold setLightSensorSettings. split.
  - intros Hn.
    destruct (py_in delayed [0; 5; 10]) eqn:Ed; cbn [negb];
      [|eexists; reflexivity].
    destruct (py_in running [5; 10; 15; 30; 60]) eqn:Er; cbn [negb];
      [|eexists; reflexivity].
    exfalso. apply Hn. split; now apply py_in_In.
  - intros [Hdl Hrn] c Hd Hc.
    rewrite (proj2 (py_in_In _ _) Hdl), (proj2 (py_in_In _ _) Hrn).
    cbn [negb]. unfold bind at 1, ret at 1. unfold bind at 1, ret at 1.
    assert (Hall : Forall is_byte [delayed; running]).
    { repeat constructor; unfold is_byte; cbn [In] in Hdl, Hrn; lia. }
    apply pack_bytes in Hall.
    destruct (direct_write_then_read (ByName CHARACTERISTIC_TIME_FUNCTIONS)
                _ _ _ LightSensorSettings_make w c Hd Hc Hall)
      as [Hset Hget].
    eexists; eexists. split; [exact Hset|]. split; [reflexivity|exact Hget].
Qed.

Lemma setLightSensorSettings_getLightSensorSettings_witness :
  (exists msg,
      setLightSensorSettings 5 20 blank_world
      = (Raise (ValueError msg), blank_world)) /\
  exists w1 w2,
    setLightSensorSettings 5 30 blank_world = (Ok tt, w1) /\
    getLightSensorSettings w1
    = (Ok {| DelayedStart := 5; RunningTime := 30 |}, w2).
Proof.
  split.
  - apply (proj1 (setLightSensorSettings_getLightSensorSettings
                    5 20 blank_world)).
    cbn [In]. lia.
  - destruct (proj2 (setLightSensorSettings_getLightSensorSettings
                       5 30 blank_world)
                ltac:(cbn [In]; lia) live_client eq_refl eq_refl)
      as (w1 & w2 & Hset & _ & Hget).
    exists w1, w2. split; [exact Hset|exact Hget].
Defined.

(** ** Sensitivity, written and read back *)

Lemma getSensorsSensitivity_run (w : World) (c : BleakClient)
  (x y z t : byte) :
  _dev w = Some c -> is_connected c = true ->
  gatt w (ByName CHARACTERISTIC_SENSITIVITY) = Some [x; y; z; t] ->
  getSensorsSensitivity w
  = (Ok {| HumidityOn := Z_of_byte x;
           Humidity := py_and (Z_of_byte x) (Z_of_byte y);
           LightOn := Z_of_byte z;
           Light := py_and (Z_of_byte z) (Z_of_byte t) |},
     add_event (EvRead (ByName CHARACTERISTIC_SENSITIVITY)) w).
Proof.
  intros Hd Hc Hg. unfold getSensorsSensitivity.
  unfold bind at 1. rewrite (read_registered _ _ _ _ Hd Hc Hg).
  unfold bind at 1, lift at 1. rewrite unpack_4B.
  unfold bind at 1, lift at 1. cbn [Sensitivity_make].
  unfold bind at 1, lift at 1.
  cbn [HumidityOn Humidity LightOn Light].
  rewrite bytearray_in_range
    by (repeat constructor;
        first [ apply Z_of_byte_range | apply py_and_range ]).
  cbn [map]. unfold bind at 1, lift at 1. rewrite unpack_4B.
  rewrite !byte_of_Z_of_byte.
  rewrite !Z_of_byte_of_Z by apply py_and_range.
  reflexivity.
Qed.

Lemma py_and_py_bool (n : Z) : py_and (py_bool n) n = n.
Proof.
  unfold py_and, py_bool.
  destruct (Z.eqb_spec n 0) as [->|Hn]; reflexivity.
Qed.

(** X7: [setSensorsSensitivity] rejects a level outside 0..3 with a
    [ValueError] before anything happens.  For levels in 0..3 it writes
    (flag, level, flag, level) with each flag 1 exactly when its level is
    not 0, and [getSensorsSensitivity] on the connected client then
    returns these four values: the normalisation of the getter changes
    nothing of what the setter wrote. *)
Theorem setSensorsSensitivity_getSensorsSensitivity (humidity light : Z)
  (w : World) :
  (~ (0 <= humidity <= 3 /\ 0 <= light <= 3) ->
   exists msg,
     setSensorsSensitivity humidity light w = (Raise (ValueError msg), w)) /\
  (0 <= humidity <= 3 /\ 0 <= light <= 3 ->
   forall c, _dev w = Some c -> is_connected c = true ->
   exists w1 w2,
     setSensorsSensitivity humidity light w = (Ok tt, w1) /\
     trace w1
     = EvWrite (ByName CHARACTERISTIC_SENSITIVITY)
         [byte_of_Z (if humidity =? 0 then 0 else 1); byte_of_Z humidity;
          byte_of_Z (if light =? 0 then 0 else 1); byte_of_Z light]
         :: trace w /\
     getSensorsSensitivity w1
     = (Ok {| HumidityOn := if humidity =? 0 then 0 else 1;
              Humidity := humidity;
              LightOn := if light =? 0 then 0 else 1;
              Light := light |}, w2)).
Proof.
  unfold setSensorsSensitivity. split.
  - intros Hn.
    destruct (Z.gtb_spec humidity 3) as [H1|H1]; cbn [orb];
      [eexists; reflexivity|].
    destruct (Z.ltb_spec humidity 0) as [H2|H2]; [eexists; reflexivity|].
    unfold bind at 1, ret at 1.
    destruct (Z.gtb_spec light 3) as [H3|H3]; cbn [orb];
      [eexists; reflexivity|].
    destruct (Z.ltb_spec light 0) as [H4|H4]; [eexists; reflexivity|].
    lia.
  - intros [Hh Hl] c Hd Hc.
    replace (humidity >? 3) with false
      by (rewrite Z.gtb_ltb; symmetry; apply Z.ltb_ge; lia).
    replace (humidity <? 0) with false by (symmetry; apply Z.ltb_ge; lia).
    replace (light >? 3) with false
      by (rewrite Z.gtb_ltb; symmetry; apply Z.ltb_ge; lia).
    replace (light <? 0) with false by (symmetry; apply Z.ltb_ge; lia).
    cbn [orb]. unfold bind at 1, ret at 1. unfold bind at 1, ret at 1.
    assert (Hbh : py_bool humidity = if humidity =? 0 then 0 else 1)
      by (unfold py_bool; destruct (humidity =? 0); reflexivity).
    assert (Hbl : py_bool light = if light =? 0 then 0 else 1)
      by (unfold py_bool; destruct (light =? 0); reflexivity).
    assert (Hrh : 0 <= py_bool humidity <= 1)
      by (rewrite Hbh; destruct (humidity =? 0); lia).
    assert (Hrl : 0 <= py_bool light <= 1)
      by (rewrite Hbl; destruct (light =? 0); lia).
    assert (Hall : Forall is_byte
                     [py_bool humidity; humidity; py_bool light; light])
      by (repeat constructor; unfold is_byte; lia).
    apply pack_bytes in Hall.
    destruct (direct_write_then_read (ByName CHARACTERISTIC_SENSITIVITY)
                _ _ _ Sensitivity_make w c Hd Hc Hall) as [Hset _].
    eexists; eexists. split; [exact Hset|].
    split; [cbn [map]; now rewrite Hbh, Hbl|].
    erewrite getSensorsSensitivity_run;
      [| exact Hd | exact Hc | apply gatt_store_same ].
    rewrite !Z_of_byte_of_Z by lia.
    rewrite !py_and_py_bool, Hbh, Hbl. reflexivity.
Qed.

Lemma setSensorsSensitivity_getSensorsSensitivity_witness :
  (exists msg,
      setSensorsSensitivity 2 4 blank_world
      = (Raise (ValueError msg), blank_world)) /\
  exists w1 w2,
    setSensorsSensitivity 0 3 blank_world = (Ok tt, w1) /\
    getSensorsSensitivity w1
    = (Ok {| HumidityOn := 0; Humidity := 0; LightOn := 1; Light := 3 |},
       w2).
Proof.
  split.
  - apply (proj1 (setSensorsSensitivity_getSensorsSensitivity
                    2 4 blank_world)). lia.
  - destruct (proj2 (setSensorsSensitivity_getSensorsSensitivity
                       0 3 blank_world)
                ltac:(lia) live_client eq_refl eq_refl)
      as (w1 & w2 & Hset & _ & Hget).
    exists w1, w2. split; [exact Hset|exact Hget].
Defined.

(** ** Boost mode, written and read back *)

(** X8: after [setBoostMode(on, speed, seconds)] with a speed that is a
    multiple of 25 (and, when [on] is true, speed and seconds in
    0..65535), [getBoostMode] on the connected client returns (1, speed,
    seconds) when [on] is true and (0, 0, 0) when it is false. *)
Theorem setBoostMode_getBoostMode (on : bool) (speed seconds : Z)
  (w : World) (c : BleakClient) (uuid : Specifier) :
  multiple_of_25 speed ->
  (on = true -> 0 <= speed <= 65535 /\ 0 <= seconds <= 65535) ->
  _dev w = Some c -> is_connected c = true ->
  device_chars w CHARACTERISTIC_BOOST = Some uuid ->
  exists w1 w2,
    setBoostMode on speed seconds w = (Ok tt, w1) /\
    getBoostMode w1
    = (Ok (if on
           then {| OnOff := 1; Speed := speed; Seconds := seconds |}
           else {| OnOff := 0; Speed := 0; Seconds := 0 |}), w2).
Proof.
  intros Hm Hrange Hd Hc Hu. apply multiple_of_25_iff in Hm.
  assert (Hp : exists data,
             Struct.pack boost_format
               [Z.b2z on; if on then speed else 0; if on then seconds else 0]
             = Ok data).
  { destruct on.
    - destruct (Hrange eq_refl) as [Hs Ht].
      eexists. apply (pack_BHH true); assumption.
    - eexists. reflexivity. }
  destruct Hp as [data Hp].
  rewrite (setBoostMode_run _ _ _ _ _ _ _ Hm Hd Hu Hp).
  unfold write_gatt_char. rewrite Hc.
  eexists; eexists. split; [reflexivity|].
  unfold getBoostMode. unfold bind at 1, chars_getitem.
  cbn [device_chars store add_event]. rewrite Hu.
  unfold bind at 1.
  erewrite read_registered;
    [| exact Hd | exact Hc | apply gatt_store_same ].
  unfold bind at 1, lift at 1.
  change [Struct.fB; Struct.fH; Struct.fH] with boost_format.
  rewrite (StructFacts.unpack_pack _ _ _ Hp).
  destruct on; reflexivity.
Qed.

Lemma setBoostMode_getBoostMode_witness :
  (exists w1 w2,
      setBoostMode true 2400 900 blank_world = (Ok tt, w1) /\
      getBoostMode w1
      = (Ok {| OnOff := 1; Speed := 2400; Seconds := 900 |}, w2)) /\
  (exists w1 w2,
      setBoostMode false 2400 900 blank_world = (Ok tt, w1) /\
      getBoostMode w1 = (Ok {| OnOff := 0; Speed := 0; Seconds := 0 |}, w2)).
Proof.
  split.
  - exact (setBoostMode_getBoostMode true 2400 900 blank_world live_client
             (ByName CHARACTERISTIC_BOOST) (ex_intro _ 96 eq_refl)
             (fun _ => ltac:(lia)) eq_refl eq_refl eq_refl).
  - exact (setBoostMode_getBoostMode false 2400 900 blank_world live_client
             (ByName CHARACTERISTIC_BOOST) (ex_intro _ 96 eq_refl)
             (fun H : false = true => ltac:(discriminate H))
             eq_refl eq_refl eq_refl).
Defined.

(** ** Mode *)

Lemma unpack_1B (x : byte) :
  Struct.unpack [Struct.fB] [x] = Ok [Z_of_byte x].
Proof.
  unfold Struct.unpack. cbn. rewrite Z.add_0_r. reflexivity.
Qed.

(** X9: for every byte read from the mode characteristic, [getMode]
    returns without raising: the name of the mode when the byte is 0 to 4,
    and [None], no text at all, when the byte is 5 or more. *)
Theorem getMode_decodes (w : World) (c : BleakClient) (uuid : Specifier)
  (x : byte) :
  _dev w = Some c -> is_connected c = true ->
  device_chars w CHARACTERISTIC_MODE = Some uuid ->
  gatt w uuid = Some [x] ->
  exists r,
    getMode w = (Ok r, add_event (EvRead uuid) w) /\
    r = nth_error mode_names (Z.to_nat (Z_of_byte x)) /\
    (r = None <-> 4 < Z_of_byte x).
Proof.
  intros Hd Hc Hu Hg.
  pose proof (Z_of_byte_range x) as Hx.
  unfold getMode. unfold bind at 1, chars_getitem. rewrite Hu.
  unfold bind at 1. rewrite (read_registered _ _ _ _ Hd Hc Hg).
  unfold bind at 1, lift at 1. rewrite unpack_1B.
  unfold bind at 1, lift at 1. cbn [getitem nth_error].
  destruct (Z.eqb_spec (Z_of_byte x) 0) as [E0|E0];
    [|destruct (Z.eqb_spec (Z_of_byte x) 1) as [E1|E1];
      [|destruct (Z.eqb_spec (Z_of_byte x) 2) as [E2|E2];
        [|destruct (Z.eqb_spec (Z_of_byte x) 3) as [E3|E3];
          [|destruct (Z.eqb_spec (Z_of_byte x) 4) as [E4|E4]]]]];
    eexists; (split; [reflexivity|]).
  - rewrite E0. split; [reflexivity|]. split; [discriminate|lia].
  - rewrite E1. split; [reflexivity|]. split; [discriminate|lia].
  - rewrite E2. split; [reflexivity|]. split; [discriminate|lia].
  - rewrite E3. split; [reflexivity|]. split; [discriminate|lia].
  - rewrite E4. split; [reflexivity|]. split; [discriminate|lia].
  - split.
    + symmetry. apply nth_error_None. cbn [mode_names List.length]. lia.
    + split; [lia|reflexivity].
Qed.

Lemma getMode_decodes_witness :
  exists w', getMode unknown_mode_world = (Ok None, w').
Proof.
  destruct (getMode_decodes unknown_mode_world live_client
              (ByName CHARACTERISTIC_MODE) x05
              eq_refl eq_refl eq_refl eq_refl) as (r & Hrun & Hr & _).
  exists (add_event (EvRead (ByName CHARACTERISTIC_MODE)) unknown_mode_world).
  rewrite Hrun, Hr. reflexivity.
Defined.

(** ** More on connecting *)

Lemma connect_returns_isConnected (retries : Z) (w : World) (r : bool)
  (w' : World) :
  connect retries w = Some (Ok r, w') -> r = isConnected w'.
Proof.
  unfold connect. destruct (isConnected w) eqn:Hc.
  - intros [= <- <-]. now rewrite Hc.
  - destruct (connect_loop _ _ _ _) as [[[[]|e] w1]|]; intros [= <- <-].
    reflexivity.
Qed.

(** X10: once [connect] has returned true, a further [connect], with any
    number of retries, returns true and changes nothing: no address is
    resolved, nothing is logged, the handle is kept. *)
Theorem connect_again_is_noop (retries retries' : Z) (w w' : World) :
  connect retries w = Some (Ok true, w') ->
  connect retries' w' = Some (Ok true, w').
Proof.
  intros Hrun. apply connect_returns_isConnected in Hrun.
  unfold connect. now rewrite <- Hrun.
Qed.

Lemma connect_again_is_noop_witness :
  exists w',
    connect 3 third_time_lucky = Some (Ok true, w') /\
    connect 1 w' = Some (Ok true, w').
Proof.
  eexists. split; [reflexivity|].
  apply (connect_again_is_noop 3 1 third_time_lucky). reflexivity.
Defined.

(** X11: with [retries] zero or negative, [connect] on a client that is
    not connected resolves no address at all and returns false; only the
    debug record of the call is logged. *)
Theorem connect_without_retries (retries : Z) (w : World) :
  retries <= 0 -> isConnected w = false ->
  connect retries w
  = Some (Ok false, add_log (DEBUG, "Connecting to %s") w).
Proof.
  intros Hr Hc. unfold connect. rewrite Hc.
  replace (Z.to_nat retries) with 0%nat by lia.
  cbn [connect_loop].
  replace (0 <? retries) with false by (symmetry; apply Z.ltb_ge; lia).
  unfold isConnected in *. cbn [_dev add_log]. now rewrite Hc.
Qed.

Lemma connect_without_retries_witness :
  connect (-1) third_time_lucky
  = Some (Ok false, add_log (DEBUG, "Connecting to %s") third_time_lucky).
Proof.
  apply connect_without_retries; [lia|reflexivity].
Defined.

(** What one attempt leaves alone, and what it does to the handle. *)
Lemma connect_attempt_frame (tries retries : Z) (w : World) :
  let w' := snd (connect_attempt tries retries w) in
  trace w' = trace w /\ gatt w' = gatt w /\
  device_chars w' = device_chars w /\ _pin w' = _pin w /\
  radio w' = radio w /\ attempts w' = S (attempts w) /\
  (_dev w <> None -> _dev w' <> None) /\
  (radio w (attempts w) <> None -> _dev w' <> None).
Proof.
  unfold connect_attempt, try_except, bind, async_ble_device_from_address,
    with_dev, client_connect, new_BleakClient, raise, ret, _LOGGER.
  cbn.
  destruct (radio w (attempts w)) as [d|];
    [destruct (on_connect d) as [l|[] l]|];
    destruct (tries =? retries); cbn;
    repeat split; intros; try reflexivity; try assumption; congruence.
Qed.

Lemma connect_loop_frame (fuel : nat) :
  forall (tries retries : Z) (w : World) (r : Result unit) (w' : World),
    connect_loop fuel tries retries w = Some (r, w') ->
    trace w' = trace w /\ gatt w' = gatt w /\
    device_chars w' = device_chars w /\ _pin w' = _pin w /\
    radio w' = radio w /\ (attempts w <= attempts w')%nat /\
    (_dev w <> None -> _dev w' <> None) /\
    (forall j, (j < attempts w' - attempts w)%nat ->
               radio w (attempts w + j)%nat <> None -> _dev w' <> None).
Proof.
  induction fuel as [|fuel IH]; intros tries retries w r w';
    cbn [connect_loop]; destruct (tries <? retries).
  - discriminate.
  - intros [= <- <-]. repeat split; auto. intros j Hj. lia.
  - pose proof (connect_attempt_frame (tries + 1) retries w) as Hf.
    destruct (connect_attempt (tries + 1) retries w) as [[[]|e] w1];
      cbn [snd] in Hf;
      destruct Hf as (Ht & Hg & Hch & Hp & Hr & Ha & Hkeep & Hnew).
    + intros [= <- <-]. repeat split; auto; try lia.
      intros j Hj. replace j with 0%nat by lia.
      now rewrite Nat.add_0_r.
    + intros Hloop. apply IH in Hloop.
      destruct Hloop as (Ht' & Hg' & Hch' & Hp' & Hr' & Ha' & Hkeep' & Hnew').
      repeat split; try congruence; try lia; auto.
      intros j Hj Hfound. destruct j as [|j].
      * rewrite Nat.add_0_r in Hfound. auto.
      * apply (Hnew' j); [lia|].
        rewrite Hr, Ha. now rewrite Nat.add_succ_r in Hfound.
    + intros [= <- <-]. repeat split; auto; try lia.
      intros j Hj. replace j with 0%nat by lia.
      now rewrite Nat.add_0_r.
  - intros [= <- <-]. repeat split; auto. intros j Hj. lia.
Qed.

(** X12: [connect] makes no GATT request and leaves the peripheral, the
    registry and the PIN as they are, whatever it returns. *)
Theorem connect_makes_no_gatt_request (retries : Z) (w : World) (r : bool)
  (w' : World) :
  connect retries w = Some (Ok r, w') ->
  trace w' = trace w /\ gatt w' = gatt w /\
  device_chars w' = device_chars w /\ _pin w' = _pin w.
Proof.
  unfold connect. destruct (isConnected w).
  - intros [= <- <-]. repeat split.
  - destruct (connect_loop _ _ _ _) as [[[[]|e] w1]|] eqn:Hloop;
      intros [= <- <-].
    apply connect_loop_frame in Hloop.
    destruct Hloop as (Ht & Hg & Hch & Hp & _). auto.
Qed.

Lemma connect_makes_no_gatt_request_witness :
  exists w',
    connect 3 third_time_lucky = Some (Ok true, w') /\
    trace w' = [] /\ gatt w' = gatt third_time_lucky.
Proof.
  eexists. split; [reflexivity|].
  destruct (connect_makes_no_gatt_request 3 third_time_lucky true _ eq_refl)
    as (Ht & Hg & _).
  split; [exact Ht|exact Hg].
Defined.

(** The handle after one attempt: the client of the device found, or the
    handle as it was when the address did not resolve. *)
Lemma connect_attempt_handle (tries retries : Z) (w : World) :
  _dev (snd (connect_attempt tries retries w))
  = match radio w (attempts w) with
    | Some d => Some (client_of d)
    | None => _dev w
    end.
Proof.
  unfold connect_attempt, try_except, bind, async_ble_device_from_address,
    with_dev, client_connect, new_BleakClient, raise, ret, _LOGGER,
    client_of.
  cbn.
  destruct (radio w (attempts w)) as [d|];
    [destruct (on_connect d) as [l|[] l]|];
    destruct (tries =? retries); reflexivity.
Qed.

(** The handle after the loop: the client of the last device resolved, or
    the handle as it was when no address resolved. *)
Lemma connect_loop_handle (fuel : nat) :
  forall (tries retries : Z) (w : World) (r : Result unit) (w' : World),
    connect_loop fuel tries retries w = Some (r, w') ->
    ((forall i, (i < attempts w' - attempts w)%nat ->
                radio w (attempts w + i)%nat = None) ->
     _dev w' = _dev w) /\
    (forall j d,
        (j < attempts w' - attempts w)%nat ->
        radio w (attempts w + j)%nat = Some d ->
        (forall i, (j < i < attempts w' - attempts w)%nat ->
                   radio w (attempts w + i)%nat = None) ->
        _dev w' = Some (client_of d)).
Proof.
  induction fuel as [|fuel IH]; intros tries retries w r w';
    cbn [connect_loop]; destruct (tries <? retries).
  - discriminate.
  - intros [= <- <-]. split; [reflexivity|]. intros j d Hj. lia.
  - pose proof (connect_attempt_frame (tries + 1) retries w) as Hf.
    pose proof (connect_attempt_handle (tries + 1) retries w) as Hh.
    destruct (connect_attempt (tries + 1) retries w) as [[[]|e] w1];
      cbn [snd] in Hf, Hh;
      destruct Hf as (_ & _ & _ & _ & Hr & Ha & _ & _).
    + intros [= <- <-]. rewrite Ha. split.
      * intros Hnone. specialize (Hnone 0%nat ltac:(lia)).
        rewrite Nat.add_0_r in Hnone. now rewrite Hnone in Hh.
      * intros j d Hj Hfound _. replace j with 0%nat in Hfound by lia.
        rewrite Nat.add_0_r in Hfound. now rewrite Hfound in Hh.
    + intros Hloop.
      pose proof (connect_loop_frame _ _ _ _ _ _ Hloop)
        as (_ & _ & _ & _ & _ & Hmono & _ & _).
      apply IH in Hloop. destruct Hloop as [Hsame Hlast].
      rewrite Hr, Ha in *. split.
      * intros Hnone. rewrite Hsame.
        -- specialize (Hnone 0%nat ltac:(lia)).
           rewrite Nat.add_0_r in Hnone. now rewrite Hnone in Hh.
        -- intros i Hi. specialize (Hnone (S i) ltac:(lia)).
           now rewrite Nat.add_succ_r in Hnone.
      * intros j d Hj Hfound Hlater. destruct j as [|j].
        -- rewrite Nat.add_0_r in Hfound. rewrite Hfound in Hh.
           rewrite Hsame; [exact Hh|].
           intros i Hi. specialize (Hlater (S i) ltac:(lia)).
           now rewrite Nat.add_succ_r in Hlater.
        -- apply (Hlast j d); [lia| |].
           ++ now rewrite Nat.add_succ_r in Hfound.
           ++ intros i Hi. specialize (Hlater (S i) ltac:(lia)).
              now rewrite Nat.add_succ_r in Hlater.
    + intros [= <- <-]. rewrite Ha. split.
      * intros Hnone. specialize (Hnone 0%nat ltac:(lia)).
        rewrite Nat.add_0_r in Hnone. now rewrite Hnone in Hh.
      * intros j d Hj Hfound _. replace j with 0%nat in Hfound by lia.
        rewrite Nat.add_0_r in Hfound. now rewrite Hfound in Hh.
  - intros [= <- <-]. split; [reflexivity|]. intros j d Hj. lia.
Qed.

(** X13: a failed [connect] does not clear the handle.  If an attempt
    resolved the address to a device and no later attempt resolved it
    again, the handle after [connect] is the client created for that
    device, the last one resolved, with the liveness its link reports; this
    also when [connect] returns false.  A later [disconnect] then asks the
    transport to disconnect it. *)
Theorem connect_failure_keeps_handle (retries : Z) (w : World) (r : bool)
  (w' : World) (j : nat) (d : BLEDevice) :
  connect retries w = Some (Ok r, w') ->
  isConnected w = false ->
  (j < attempts w' - attempts w)%nat ->
  radio w (attempts w + j)%nat = Some d ->
  (forall i, (j < i < attempts w' - attempts w)%nat ->
             radio w (attempts w + i)%nat = None) ->
  _dev w' = Some {| is_connected := live_after (on_connect d);
                    ble_device := d |} /\
  r = live_after (on_connect d) /\
  exists w'', disconnect w' = (Ok tt, w'') /\
              trace w'' = EvDisconnect :: trace w'.
Proof.
  intros Hrun Hc Hj Hfound Hlater.
  assert (Hdev : _dev w' = Some (client_of d)).
  { unfold connect in Hrun. rewrite Hc in Hrun.
    destruct (connect_loop _ _ _ _) as [[[[]|e] w1]|] eqn:Hloop;
      try discriminate.
    injection Hrun as _ Hw. subst w1.
    apply connect_loop_handle in Hloop.
    cbn [attempts radio add_log] in Hloop.
    destruct Hloop as [_ Hlast].
    apply (Hlast j d); assumption. }
  split; [exact Hdev|]. split.
  - apply connect_returns_isConnected in Hrun. rewrite Hrun.
    unfold isConnected. now rewrite Hdev.
  - unfold disconnect. rewrite Hdev.
    unfold bind, try_except, with_dev, client_disconnect, _LOGGER.
    rewrite Hdev. cbn [disconnect_raises add_event].
    destruct (disconnect_raises w'); eexists; split; reflexivity.
Qed.

Lemma connect_failure_keeps_handle_witness :
  exists w',
    connect 2 two_devices_world = Some (Ok false, w') /\
    _dev w' = Some {| is_connected := false; ble_device := declining |} /\
    exists w'', disconnect w' = (Ok tt, w'') /\ trace w'' = [EvDisconnect].
Proof.
  eexists. split; [reflexivity|].
  destruct (connect_failure_keeps_handle 2 two_devices_world false _ 1%nat
              declining eq_refl eq_refl ltac:(cbn; lia) eq_refl)
    as (Hdev & _ & Hdisc).
  { intros i Hi. cbn in Hi. lia. }
  split; [exact Hdev|exact Hdisc].
Defined.

(** ** After disconnecting *)

Lemma disconnect_drops_handle (w : World) :
  fst (disconnect w) = Ok tt /\ _dev (snd (disconnect w)) = None.
Proof.
  unfold disconnect. destruct (_dev w) as [c|] eqn:Hd.
  - unfold bind, try_except, with_dev, client_disconnect, _LOGGER.
    rewrite Hd. cbn [disconnect_raises add_event].
    destruct (disconnect_raises w); split; reflexivity.
  - split; [reflexivity|exact Hd].
Qed.

(** X14: once [disconnect] has returned, a second [disconnect] does
    nothing (no request to the transport), and every read or write of a
    characteristic raises an [AttributeError] without any request to the
    transport; so does [getState], unless the registry lacks the sensor
    characteristic, in which case it raises [KeyError]. *)
Theorem after_disconnect (rt : Runtime) (w : World) (uuid : Specifier)
  (data : list byte) :
  let w1 := snd (disconnect w) in
  disconnect w1 = (Ok tt, w1) /\
  _readUUID uuid w1
  = (Raise (AttributeError
              "'NoneType' object has no attribute 'read_gatt_char'"), w1) /\
  _writeUUID uuid data w1
  = (Raise (AttributeError
              "'NoneType' object has no attribute 'write_gatt_char'"), w1) /\
  getState rt w1
  = (Raise (match device_chars w1 CHARACTERISTIC_SENSOR_DATA with
            | Some _ =>
                AttributeError
                  "'NoneType' object has no attribute 'read_gatt_char'"
            | None => KeyError
            end), w1).
Proof.
  intros w1. destruct (disconnect_drops_handle w) as [_ Hd]. fold w1 in Hd.
  split; [|split; [|split]].
  - unfold disconnect. now rewrite Hd.
  - unfold _readUUID, with_dev. now rewrite Hd.
  - unfold _writeUUID, with_dev. now rewrite Hd.
  - unfold getState, bind at 1, chars_getitem.
    destruct (device_chars w1 CHARACTERISTIC_SENSOR_DATA) as [u|];
      [|reflexivity].
    unfold bind at 1, _readUUID, with_dev. now rewrite Hd.
Qed.

Lemma after_disconnect_witness :
  exists w1,
    disconnect example_sensor_world = (Ok tt, w1) /\
    disconnect w1 = (Ok tt, w1) /\
    getState example_runtime w1
    = (Raise (AttributeError
                "'NoneType' object has no attribute 'read_gatt_char'"), w1).
Proof.
  eexists. split; [reflexivity|].
  destruct (after_disconnect example_runtime example_sensor_world
              (ByName CHARACTERISTIC_SENSOR_DATA) [])
    as (Hagain & _ & _ & Hstate).
  split; [exact Hagain|exact Hstate].
Defined.

(** ** Errors of the fan-speed setter and of the state getter *)

(** X15: with three legal speeds, [setFanSpeedSettings] on a model whose
    registry lacks the fan-speed characteristic raises [KeyError], and on a
    client without a handle it raises [AttributeError]; in both cases the
    debug record has been logged and no request has been made of the
    transport. *)
Theorem setFanSpeedSettings_without_target (humidity light trickle : Z)
  (w : World) :
  legal_speed humidity -> legal_speed light -> legal_speed trickle ->
  let w0 := add_log (DEBUG, "Calima setFanSpeedSettings: %s %s %s") w in
  (device_chars w CHARACTERISTIC_LEVEL_OF_FAN_SPEED = None ->
   setFanSpeedSettings humidity light trickle w = (Raise KeyError, w0)) /\
  (device_chars w CHARACTERISTIC_LEVEL_OF_FAN_SPEED <> None ->
   _dev w = None ->
   setFanSpeedSettings humidity light trickle w
   = (Raise (AttributeError
               "'NoneType' object has no attribute 'write_gatt_char'"),
      w0)).
Proof.
  intros Hh Hl Ht w0. unfold setFanSpeedSettings.
  unfold bind at 1. unfold lift at 1.
  rewrite setFanSpeedSettings_loop_ok by (repeat constructor; assumption).
  split.
  - intros Hu. unfold bind, _LOGGER, chars_getitem.
    cbn [device_chars add_log]. now rewrite Hu.
  - intros Hu Hd.
    destruct (device_chars w CHARACTERISTIC_LEVEL_OF_FAN_SPEED)
      as [uuid|] eqn:Eu; [|contradiction].
    unfold bind, _LOGGER, chars_getitem, lift.
    cbn [device_chars add_log]. rewrite Eu.
    rewrite pack_HHH by (apply legal_speed_uint16; assumption).
    unfold _writeUUID, with_dev. cbn [_dev add_log]. now rewrite Hd.
Qed.

Lemma setFanSpeedSettings_without_target_witness :
  setFanSpeedSettings 2250 1625 1000 out_of_range
  = (Raise (AttributeError
              "'NoneType' object has no attribute 'write_gatt_char'"),
     add_log (DEBUG, "Calima setFanSpeedSettings: %s %s %s") out_of_range).
Proof.
  apply (proj2 (setFanSpeedSettings_without_target 2250 1625 1000
                  out_of_range
                  (legal_speed_example 90 ltac:(lia))
                  (legal_speed_example 65 ltac:(lia))
                  (legal_speed_example 40 ltac:(lia)))).
  - discriminate.
  - reflexivity.
Defined.

Lemma unpack_wrong_length (fmt : list Struct.Code) (data : list byte) :
  List.length data <> Struct.calcsize fmt ->
  Struct.unpack fmt data = Raise StructError.
Proof.
  intros Hn. unfold Struct.unpack.
  now rewrite (proj2 (Nat.eqb_neq _ _) Hn).
Qed.

(** X16: when the sensor-data characteristic returns a payload that is not
    exactly 12 bytes long (an empty one, a truncated one, a longer one),
    [getState] raises [struct.error] after the one read: no state is
    returned and nothing is logged. *)
Theorem getState_wrong_length (rt : Runtime) (w : World) (c : BleakClient)
  (uuid : Specifier) (data : list byte) :
  _dev w = Some c -> is_connected c = true ->
  device_chars w CHARACTERISTIC_SENSOR_DATA = Some uuid ->
  gatt w uuid = Some data ->
  List.length data <> 12%nat ->
  getState rt w = (Raise StructError, add_event (EvRead uuid) w).
Proof.
  intros Hd Hc Hu Hg Hlen. unfold getState.
  unfold bind at 1. unfold chars_getitem. rewrite Hu.
  unfold bind at 1. rewrite (read_registered _ _ _ _ Hd Hc Hg).
  unfold bind at 1, lift at 1.
  now rewrite unpack_wrong_length by exact Hlen.
Qed.

Lemma getState_wrong_length_witness :
  getState example_runtime empty_payload_world
  = (Raise StructError,
     add_event (EvRead (ByName CHARACTERISTIC_SENSOR_DATA))
       empty_payload_world).
Proof.
  apply (getState_wrong_length example_runtime empty_payload_world
           live_client (ByName CHARACTERISTIC_SENSOR_DATA) []);
    try reflexivity. discriminate.
Defined.

(** ** Hexadecimal and ASCII text *)

Lemma utf8_decode_ascii (data : list byte) :
  Forall (fun x => Z_of_byte x < 128) data ->
  utf8_decode data = Ok (map Z_of_byte data).
Proof.
  induction 1 as [|x data Hx _ IH]; [reflexivity|].
  cbn [utf8_decode map]. cbv zeta.
  rewrite (proj2 (Z.ltb_lt _ _) Hx), IH. reflexivity.
Qed.

Lemma hexcode_range (d : Z) :
  0 <= d < 16 -> 48 <= hexcode d <= 57 \/ 97 <= hexcode d <= 102.
Proof.
  intros Hd. unfold hexcode. destruct (Z.ltb_spec d 10); lia.
Qed.

Lemma Z_of_byte_hexdigit (d : Z) :
  0 <= d < 16 -> Z_of_byte (hexdigit d) = hexcode d.
Proof.
  intros Hd. unfold hexdigit. fold (hexcode d).
  apply Z_of_byte_of_Z. pose proof (hexcode_range d Hd). lia.
Qed.

Lemma nibbles (x : byte) :
  0 <= Z_of_byte x / 16 < 16 /\ 0 <= Z_of_byte x mod 16 < 16.
Proof.
  pose proof (Z_of_byte_range x). Z.div_mod_to_equations. lia.
Qed.

Lemma b2a_hex_ascii (val : list byte) :
  Forall (fun x => Z_of_byte x < 128) (b2a_hex val) /\
  map Z_of_byte (b2a_hex val) = hex_text val.
Proof.
  induction val as [|x val [IH1 IH2]]; [split; [constructor|reflexivity]|].
  destruct (nibbles x) as [Hhi Hlo].
  cbn [b2a_hex hex_text map].
  rewrite !Z_of_byte_hexdigit by assumption. split.
  - repeat constructor; try exact IH1; rewrite Z_of_byte_hexdigit by assumption.
    + pose proof (hexcode_range _ Hhi). lia.
    + pose proof (hexcode_range _ Hlo). lia.
  - now rewrite IH2.
Qed.

Lemma bToStr_is_hex_text (val : list byte) : _bToStr val = Ok (hex_text val).
Proof.
  unfold _bToStr, decode. destruct (b2a_hex_ascii val) as [Hascii Hmap].
  now rewrite utf8_decode_ascii, Hmap.
Qed.

Lemma hex_text_injective (val : list byte) :
  forall val', hex_text val = hex_text val' -> val = val'.
Proof.
  induction val as [|x val IH]; intros [|y val']; cbn [hex_text];
    try discriminate; [reflexivity|].
  intros [= Hhi Hlo Hrest]. f_equal; [|now apply IH].
  rewrite <- (byte_of_Z_of_byte x), <- (byte_of_Z_of_byte y). f_equal.
  pose proof (Z_of_byte_range x). pose proof (Z_of_byte_range y).
  unfold hexcode in Hhi, Hlo.
  destruct (Z.ltb_spec (Z_of_byte x / 16) 10),
    (Z.ltb_spec (Z_of_byte y / 16) 10),
    (Z.ltb_spec (Z_of_byte x mod 16) 10),
    (Z.ltb_spec (Z_of_byte y mod 16) 10);
    Z.div_mod_to_equations; lia.
Qed.

Lemma hex_text_length (val : list byte) :
  List.length (hex_text val) = (2 * List.length val)%nat.
Proof.
  induction val as [|x val IH]; [reflexivity|].
  cbn [hex_text List.length]. rewrite IH. lia.
Qed.

Lemma hex_text_digits (val : list byte) :
  Forall (fun cp => 48 <= cp <= 57 \/ 97 <= cp <= 102) (hex_text val).
Proof.
  induction val as [|x val IH]; [constructor|].
  destruct (nibbles x) as [Hhi Hlo]. cbn [hex_text].
  constructor; [now apply hexcode_range|].
  constructor; [now apply hexcode_range|exact IH].
Qed.

(** X17: [_bToStr] never fails: for all bytes it returns a text of exactly
    two characters per byte, each a digit ['0'..'9'] or a lower-case letter
    ['a'..'f'], and different byte strings give different texts. *)
Theorem bToStr_hexadecimal (val val' : list byte) :
  exists s,
    _bToStr val = Ok s /\
    List.length s = (2 * List.length val)%nat /\
    Forall (fun cp => 48 <= cp <= 57 \/ 97 <= cp <= 102) s /\
    (_bToStr val' = Ok s -> val' = val).
Proof.
  exists (hex_text val). split; [apply bToStr_is_hex_text|].
  split; [apply hex_text_length|]. split; [apply hex_text_digits|].
  rewrite bToStr_is_hex_text. intros [= Heq].
  now apply hex_text_injective.
Qed.

Lemma ascii_decode_ok (data : list byte) :
  Forall (fun x => Z_of_byte x < 128) data ->
  ascii_decode data = Ok (map Z_of_byte data).
Proof.
  induction 1 as [|x data Hx _ IH]; [reflexivity|].
  cbn [ascii_decode map].
  rewrite (proj2 (Z.ltb_lt _ _) Hx), IH. reflexivity.
Qed.

Lemma ascii_decode_rejects (data : list byte) :
  ~ Forall (fun x => Z_of_byte x < 128) data ->
  ascii_decode data = Raise UnicodeDecodeError.
Proof.
  induction data as [|x data IH]; intros Hn.
  - exfalso. apply Hn. constructor.
  - cbn [ascii_decode]. destruct (Z.ltb_spec (Z_of_byte x) 128) as [Hx|Hx];
      [|reflexivity].
    rewrite IH; [reflexivity|].
    intros Hall. apply Hn. now constructor.
Qed.

(** X18: each of the six device-information getters reads its own fixed
    handle (model number 13, serial number 11, hardware revision 15,
    firmware revision 17, software revision 19, manufacturer 21), whatever
    the registry of the model holds.  It returns the bytes read as text
    when all of them are below 128, and raises [UnicodeDecodeError] when
    one is not. *)
Theorem device_information_getters_decode (g : M str) (h : Z) (w : World)
  (c : BleakClient) (data : list byte) :
  In (g, h) device_information_getters ->
  _dev w = Some c -> is_connected c = true ->
  gatt w (ByHandle h) = Some data ->
  exists r,
    g w = (r, add_event (EvRead (ByHandle h)) w) /\
    (Forall (fun x => Z_of_byte x < 128) data ->
     r = Ok (map Z_of_byte data)) /\
    (~ Forall (fun x => Z_of_byte x < 128) data ->
     r = Raise UnicodeDecodeError).
Proof.
  intros Hin Hd Hc Hg.
  exists (ascii_decode data). split.
  - cbn [In device_information_getters] in Hin.
    destruct Hin as [E|[E|[E|[E|[E|[E|[]]]]]]]; injection E as <- <-;
      [ unfold getModelNumber | unfold getSerialNumber
      | unfold getHardwareRevision | unfold getFirmwareRevision
      | unfold getSoftwareRevision | unfold getManufacturer ];
      unfold bind; change _readHandle with _readUUID;
      rewrite (read_registered _ _ _ _ Hd Hc Hg); reflexivity.
  - split; [apply ascii_decode_ok|apply ascii_decode_rejects].
Qed.

Lemma device_information_getters_decode_witness :
  getManufacturer manufacturer_world
  = (Ok [80; 65; 88], add_event (EvRead (ByHandle 21)) manufacturer_world).
Proof.
  destruct (device_information_getters_decode getManufacturer 21
              manufacturer_world live_client [x50; x41; x58]
              ltac:(cbn; tauto) eq_refl eq_refl eq_refl)
    as (r & Hrun & Hok & _).
  rewrite Hrun. f_equal. apply Hok.
  repeat constructor.
Defined.

(** X19: [getIsClockSet] and [getLed] cannot fail in decoding: whatever
    bytes the status or LED characteristic returns (none at all included),
    the result is their hexadecimal text, two characters per byte. *)
Theorem status_getters_return_hex (w : World) (c : BleakClient)
  (uuid : Specifier) (data : list byte) :
  _dev w = Some c -> is_connected c = true -> gatt w uuid = Some data ->
  (device_chars w CHARACTERISTIC_STATUS = Some uuid ->
   getIsClockSet w = (Ok (hex_text data), add_event (EvRead uuid) w)) /\
  (device_chars w CHARACTERISTIC_LED = Some uuid ->
   getLed w = (Ok (hex_text data), add_event (EvRead uuid) w)) /\
  List.length (hex_text data) = (2 * List.length data)%nat.
Proof.
  intros Hd Hc Hg. split; [|split; [|apply hex_text_length]]; intros Hu.
  - unfold getIsClockSet, bind at 1, chars_getitem. rewrite Hu.
    unfold bind, lift. rewrite (read_registered _ _ _ _ Hd Hc Hg).
    now rewrite bToStr_is_hex_text.
  - unfold getLed, bind at 1, chars_getitem. rewrite Hu.
    unfold bind, lift. rewrite (read_registered _ _ _ _ Hd Hc Hg).
    now rewrite bToStr_is_hex_text.
Qed.

Lemma status_getters_return_hex_witness :
  getIsClockSet empty_payload_world
  = (Ok [], add_event (EvRead (ByName CHARACTERISTIC_STATUS))
              empty_payload_world) /\
  getLed led_world
  = (Ok [48; 49; 97; 98],
     add_event (EvRead (ByName CHARACTERISTIC_LED)) led_world).
Proof.
  split.
  - exact (proj1 (status_getters_return_hex empty_payload_world live_client
                    (ByName CHARACTERISTIC_STATUS) []
                    eq_refl eq_refl eq_refl) eq_refl).
  - exact (proj1 (proj2 (status_getters_return_hex led_world
                           live_client (ByName CHARACTERISTIC_LED)
                           [x01; xab] eq_refl eq_refl eq_refl)) eq_refl).
Defined.

(** ** Names that cannot be encoded *)

Lemma encode_cp_None (cp : Z) :
  Utf8.encode_cp cp = None <-> ~ encodable cp.
Proof.
  unfold Utf8.encode_cp, encodable.
  destruct (Z.ltb_spec cp 0); [split; [lia|reflexivity]|].
  destruct (Z.ltb_spec cp 128); [split; [discriminate|lia]|].
  destruct (Z.ltb_spec cp 2048); [split; [discriminate|lia]|].
  destruct (Z.ltb_spec cp 65536).
  - destruct (Z.leb_spec 55296 cp), (Z.leb_spec cp 57343); cbn [andb];
      split; try discriminate; try reflexivity; lia.
  - destruct (Z.ltb_spec cp 1114112); split;
      try discriminate; try reflexivity; lia.
Qed.

Lemma encode_cp_length (cp : Z) (x : list byte) :
  Utf8.encode_cp cp = Some x -> (1 <= List.length x <= 4)%nat.
Proof.
  unfold Utf8.encode_cp.
  repeat match goal with
         | |- context [if ?t then _ else _] => destruct t
         end; intros [= <-]; cbn; lia.
Qed.

Lemma encode_rejects (name : str) :
  ~ Forall encodable name -> Utf8.encode name = Raise UnicodeEncodeError.
Proof.
  induction name as [|cp name IH]; intros Hn.
  - exfalso. apply Hn. constructor.
  - cbn [Utf8.encode]. destruct (Utf8.encode_cp cp) as [x|] eqn:E;
      [|reflexivity].
    rewrite IH; [reflexivity|].
    intros Hall. apply Hn. constructor; [|exact Hall].
    destruct (Z.le_gt_cases 0 cp) as [H0|H0];
      [|exfalso; unfold Utf8.encode_cp in E;
        rewrite (proj2 (Z.ltb_lt _ _) H0) in E; discriminate].
    assert (Hne : Utf8.encode_cp cp <> None) by (rewrite E; discriminate).
    rewrite encode_cp_None in Hne.
    unfold encodable in *. lia.
Qed.

Lemma encode_accepts (name : str) :
  Forall encodable name ->
  exists enc,
    Utf8.encode name = Ok enc /\
    (List.length name <= List.length enc <= 4 * List.length name)%nat.
Proof.
  induction 1 as [|cp name Hcp _ (enc & He & Hlen)].
  - exists []. split; [reflexivity|cbn; lia].
  - cbn [Utf8.encode]. destruct (Utf8.encode_cp cp) as [x|] eqn:E.
    + rewrite He. cbn [rbind]. eexists. split; [reflexivity|].
      apply encode_cp_length in E. rewrite length_app. cbn [List.length]. lia.
    + apply encode_cp_None in E. contradiction.
Qed.

(** X20: [setAlias] accepts exactly the names made of encodable code
    points.  A name with a surrogate (or a value outside the Unicode range)
    raises [UnicodeEncodeError] and nothing has happened; any other name,
    however long, leads to the transport write of a 20-byte payload whose
    first bytes are the UTF-8 bytes of the name, cut after 20 bytes. *)
Theorem setAlias_accepts_encodable (name : str) (w : World)
  (uuid : Specifier) :
  device_chars w CHARACTERISTIC_FAN_DESCRIPTION = Some uuid ->
  (~ Forall encodable name ->
   setAlias name w = (Raise UnicodeEncodeError, w)) /\
  (Forall encodable name ->
   forall c, _dev w = Some c ->
   exists enc data,
     Utf8.encode name = Ok enc /\
     (List.length name <= List.length enc <= 4 * List.length name)%nat /\
     setAlias name w = write_gatt_char c uuid data w /\
     List.length data = 20%nat /\
     firstn (List.length enc) data = firstn 20 enc).
Proof.
  intros Hu. split.
  - intros Hn. apply encode_rejects in Hn.
    unfold setAlias, bind at 1, chars_getitem. rewrite Hu.
    unfold bind at 1, lift at 1. now rewrite Hn.
  - intros Hall c Hd. destruct (encode_accepts name Hall) as (enc & He & Hlen).
    exists enc, (Struct.pack_s 20 enc).
    split; [exact He|]. split; [exact Hlen|]. split; [|split].
    + unfold setAlias, bind at 1, chars_getitem. rewrite Hu.
      unfold bind at 1, lift at 1. rewrite He.
      unfold _writeUUID, with_dev. now rewrite Hd.
    + apply StructFacts.pack_s_length.
    + unfold Struct.pack_s. rewrite firstn_firstn.
      destruct (Nat.le_gt_cases (List.length enc) 20) as [Hle|Hgt].
      * rewrite Nat.min_l by exact Hle.
        rewrite firstn_app, Nat.sub_diag, firstn_O, app_nil_r.
        rewrite firstn_all. symmetry. apply firstn_all2. exact Hle.
      * rewrite Nat.min_r by lia.
        rewrite firstn_app.
        replace (20 - List.length enc)%nat with 0%nat by lia.
        now rewrite firstn_O, app_nil_r.
Qed.

Lemma setAlias_accepts_encodable_witness :
  setAlias [70; 55296; 110] example_alias_world
  = (Raise UnicodeEncodeError, example_alias_world) /\
  exists enc data,
    Utf8.encode [70; 233; 110] = Ok enc /\
    setAlias [70; 233; 110] example_alias_world
    = write_gatt_char live_client (ByName CHARACTERISTIC_FAN_DESCRIPTION)
        data example_alias_world /\
    List.length data = 20%nat.
Proof.
  split.
  - apply (proj1 (setAlias_accepts_encodable [70; 55296; 110]
                    example_alias_world
                    (ByName CHARACTERISTIC_FAN_DESCRIPTION) eq_refl)).
    intros Hall. inversion Hall as [|? ? _ H1]; subst.
    inversion H1 as [|? ? [_ Hs] _]; subst. apply Hs. lia.
  - destruct (proj2 (setAlias_accepts_encodable [70; 233; 110]
                       example_alias_world
                       (ByName CHARACTERISTIC_FAN_DESCRIPTION) eq_refl)
                ltac:(repeat constructor; unfold encodable; lia)
                live_client eq_refl)
      as (enc & data & He & _ & Hrun & Hlen & _).
    exists enc, data. split; [exact He|]. split; [exact Hrun|exact Hlen].
Defined.
